(** * Domfie: the self-healing DOM scraper (app.py)

    A shallow embedding of the decision logic of [app.py]: the subject
    extractor, the HTML context window, the JSON-LD extractor, the hybrid
    fetcher and the cascade of extraction strategies run by the main loop.

    Python values are modelled as follows.
    - A [str] is a Rocq [string]; its characters are read as the code points
      U+0000 .. U+00FF, on which [str.lower], the regular expression class
      [\w] and [repr] are given by the tables below. The context window is
      embedded a second time, in [Unicode], on texts that can also hold
      U+0130, the one code point that [str.lower] turns into two.
    - A Python [int] is a [Z]; the result [-1] of [str.find] is kept as is.
    - The [dict] built by [parse_json_ld] is a [gmap string json].
    - The libraries the script calls (BeautifulSoup, requests, the Chrome
      driver, the Ollama HTTP endpoint, Streamlit) are not part of the
      repository: what they answer is a field of an environment record, and
      what the script asks of them is recorded in an event log. *)

From Stdlib Require Import ZArith Ascii String List Bool Lia Sorted.
From stdpp Require Import gmap strings pretty.

Local Open Scope Z_scope.
Set Warnings "-register-all".

(* ===================================================================== *)
(** * Part I: the program                                                  *)
(* ===================================================================== *)

(** ** Python strings *)

Module PyStr.

(** [ord(c)] *)
Definition ord (c : ascii) : N := N_of_ascii c.

Definition between (lo hi : N) (c : ascii) : bool :=
  ((lo <=? ord c) && (ord c <=? hi))%N.

(** The characters [c] with [c.lower() != c]: A-Z, and the Latin-1 capitals
    U+00C0 .. U+00DE without the multiplication sign U+00D7. *)
Definition has_lower (c : ascii) : bool :=
  between 65 90 c || between 192 214 c || between 216 222 c.

Definition lower_char (c : ascii) : ascii :=
  if has_lower c then ascii_of_N (ord c + 32) else c.

(** [s.lower()] *)
Fixpoint lower (s : string) : string :=
  match s with
  | EmptyString => EmptyString
  | String c s' => String (lower_char c) (lower s')
  end.

(** The class [\w] of [re] on [str] patterns: alphanumeric characters
    (letters, decimal digits, and the characters with a digit or numeric
    value such as superscripts and vulgar fractions) and the underscore. *)
Definition is_word_char (c : ascii) : bool :=
  between 48 57 c || between 65 90 c || (ord c =? 95)%N || between 97 122 c
  || (ord c =? 170)%N || between 178 179 c || (ord c =? 181)%N
  || between 185 186 c || between 188 190 c
  || between 192 214 c || between 216 246 c || between 248 255 c.

(** A finished token is reported only when it has at least one character. *)
Definition flush (tok : string) : list string :=
  match tok with
  | EmptyString => []
  | _ => [tok]
  end.

(** Left-to-right scan for [\w+]: [tok] is the run of word characters read
    so far; the run ends at the first other character or at the end. *)
Fixpoint scan_words (tok : string) (s : string) : list string :=
  match s with
  | EmptyString => flush tok
  | String c s' =>
      if is_word_char c then scan_words (tok +:+ String c EmptyString) s'
      else flush tok ++ scan_words EmptyString s'
  end.

(** [re.findall(r'\w+', s)] *)
Definition findall_words (s : string) : list string :=
  scan_words EmptyString s.

(** [s.startswith(p)] *)
Fixpoint startswith (p s : string) : bool :=
  match p, s with
  | EmptyString, _ => true
  | String _ _, EmptyString => false
  | String a p', String b s' => if Ascii.eqb a b then startswith p' s' else false
  end.

(** [s.find(sub)], searching from position [i] on: the lowest index at
    which [sub] occurs, or [-1]. *)
Fixpoint find_from (i : Z) (s sub : string) : Z :=
  if startswith sub s then i
  else match s with
       | EmptyString => -1
       | String _ s' => find_from (i + 1) s' sub
       end.

Definition find (s sub : string) : Z := find_from 0 s sub.

(** [sub in s] for two [str] *)
Definition contains (sub s : string) : bool :=
  negb (find s sub =? -1).

(** [len(s)] *)
Definition len (s : string) : Z := Z.of_nat (String.length s).

(** Slice bounds as Python normalises them: a negative bound counts from
    the end, and both bounds are clipped to [0, len(s)]. *)
Definition clip (n i : Z) : Z :=
  if i <? 0 then Z.max 0 (i + n) else Z.min i n.

(** [s[start:end]] *)
Definition slice (s : string) (start stop : Z) : string :=
  let lo := clip (len s) start in
  let hi := clip (len s) stop in
  String.substring (Z.to_nat lo) (Z.to_nat (hi - lo)) s.

(** [s[:stop]] *)
Definition slice_to (s : string) (stop : Z) : string := slice s 0 stop.

(** [bool(s)]: a [str] is true when it is not empty. *)
Definition truthy (s : string) : bool :=
  match s with
  | EmptyString => false
  | _ => true
  end.

(** [c.isspace()] *)
Definition isspace (c : ascii) : bool :=
  between 9 13 c || between 28 32 c || (ord c =? 133)%N || (ord c =? 160)%N.

Fixpoint lstrip (s : string) : string :=
  match s with
  | EmptyString => EmptyString
  | String c s' => if isspace c then lstrip s' else s
  end.

Fixpoint rstrip (s : string) : string :=
  match s with
  | EmptyString => EmptyString
  | String c s' =>
      match rstrip s' with
      | EmptyString => if isspace c then EmptyString else String c EmptyString
      | r => String c r
      end
  end.

(** [s.strip()] *)
Definition strip (s : string) : string := rstrip (lstrip s).

(** The line feed, and [lines], which joins the lines of a triple-quoted
    literal that ends with a line feed. *)
Definition nl : string := String (ascii_of_N 10) EmptyString.

Fixpoint lines (ls : list string) : string :=
  match ls with
  | [] => EmptyString
  | l :: rest => l +:+ nl +:+ lines rest
  end.

End PyStr.

(** ** ScraperLogic.extract_subject *)

Module Subject.

Definition stop_words : gset string :=
  {[ "extract"; "find"; "get"; "the"; "a"; "an"; "of"; "value"; "text";
     "name"; "movie"; "page"; "webpage"; "site" ]}.

Definition extract_subject (intent : string) : string :=
  let words := PyStr.findall_words (PyStr.lower intent) in
  let candidates := filter (λ w, w ∉ stop_words) words in
  match last candidates with
  | Some c => c
  | None =>
      match last words with
      | Some w => w
      | None => "data"
      end
  end.

End Subject.

(** ** Python values and exceptions *)

Module Py.

(** What [json.loads] can return. A [float] is kept as its [repr] (the
    shortest decimal string that reads back as the same float), which is
    all the script observes of it. A [dict] is the list of its items in
    insertion order; looking a key up takes its first binding. *)
Inductive json : Type :=
| JNull
| JBool (b : bool)
| JInt (n : Z)
| JFloat (shown : string)
| JStr (s : string)
| JList (l : list json)
| JDict (items : list (string * json)).

Inductive exn : Type :=
| TypeError | KeyError | IndexError | AttributeError | ValueError
| ConnectionError | WebDriverException.

Inductive result (A : Type) : Type :=
| Ok (a : A)
| Raise (e : exn).
Arguments Ok {A} a.
Arguments Raise {A} e.

Fixpoint assoc (items : list (string * json)) (key : string) : option json :=
  match items with
  | [] => None
  | (k, v) :: rest => if String.eqb k key then Some v else assoc rest key
  end.

Definition isinstance_list (v : json) : bool :=
  match v with JList _ => true | _ => false end.

Definition isinstance_dict (v : json) : bool :=
  match v with JDict _ => true | _ => false end.

Definition is_str (key : string) (v : json) : bool :=
  match v with JStr s => String.eqb s key | _ => false end.

(** [key in data] for a [str] key: key membership in a dict, element
    membership in a list, substring test in a str; the other values are
    not containers. *)
Definition contains (key : string) (data : json) : result bool :=
  match data with
  | JDict items => Ok (bool_decide (is_Some (assoc items key)))
  | JList l => Ok (existsb (is_str key) l)
  | JStr s => Ok (PyStr.contains key s)
  | _ => Raise TypeError
  end.

(** [data[key]] for a [str] key *)
Definition getitem (data : json) (key : string) : result json :=
  match data with
  | JDict items =>
      match assoc items key with
      | Some v => Ok v
      | None => Raise KeyError
      end
  | _ => Raise TypeError
  end.

(** [data[0]] *)
Definition getitem0 (data : json) : result json :=
  match data with
  | JList [] => Raise IndexError
  | JList (x :: _) => Ok x
  | JStr EmptyString => Raise IndexError
  | JStr (String c _) => Ok (JStr (String c EmptyString))
  | JDict _ => Raise KeyError
  | _ => Raise TypeError
  end.

(** [offer.get(key, default)]: only a dict has the method. *)
Definition get (offer : json) (key : string) (default : json) : result json :=
  match offer with
  | JDict items => Ok (from_option id default (assoc items key))
  | _ => Raise AttributeError
  end.

(** *** [repr] and [str] *)

Definition quote1 : ascii := ascii_of_N 39.
Definition quote2 : ascii := ascii_of_N 34.
Definition backslash : ascii := ascii_of_N 92.

Definition hex_digit (n : N) : ascii :=
  from_option id "0"%char (String.get (N.to_nat n) "0123456789abcdef").

(** The control characters, DEL, the C1 controls, the no-break space and
    the soft hyphen are not printable. *)
Definition printable (c : ascii) : bool :=
  negb (PyStr.between 0 31 c || PyStr.between 127 160 c
        || (PyStr.ord c =? 173)%N).

Definition char1 (c : ascii) : string := String c EmptyString.

Definition repr_char (quote c : ascii) : string :=
  if Ascii.eqb c backslash then String backslash (char1 backslash)
  else if Ascii.eqb c quote then String backslash (char1 quote)
  else if (PyStr.ord c =? 9)%N then String backslash "t"
  else if (PyStr.ord c =? 10)%N then String backslash "n"
  else if (PyStr.ord c =? 13)%N then String backslash "r"
  else if printable c then char1 c
  else String backslash
         (String "x" (String (hex_digit (PyStr.ord c / 16))
                         (char1 (hex_digit (PyStr.ord c mod 16))))).

Fixpoint repr_chars (quote : ascii) (s : string) : string :=
  match s with
  | EmptyString => EmptyString
  | String c s' => repr_char quote c +:+ repr_chars quote s'
  end.

(** [repr(s)] of a [str]: single quotes, unless the text has a single
    quote and no double quote. *)
Definition repr_str (s : string) : string :=
  let quote :=
    if PyStr.contains (char1 quote1) s && negb (PyStr.contains (char1 quote2) s)
    then quote2 else quote1 in
  String quote (repr_chars quote s) +:+ char1 quote.

(** [', '.join(parts)] *)
Fixpoint join (parts : list string) : string :=
  match parts with
  | [] => ""
  | [p] => p
  | p :: rest => p +:+ ", " +:+ join rest
  end.

Fixpoint repr (v : json) : string :=
  match v with
  | JNull => "None"
  | JBool true => "True"
  | JBool false => "False"
  | JInt n => pretty n
  | JFloat shown => shown
  | JStr s => repr_str s
  | JList l => "[" +:+ join (map repr l) +:+ "]"
  | JDict items =>
      "{" +:+ join (map (λ '(k, x), repr_str k +:+ ": " +:+ repr x) items) +:+ "}"
  end.

(** [str(v)], which is what an f-string field [{v}] renders. *)
Definition str (v : json) : string :=
  match v with
  | JStr s => s
  | _ => repr v
  end.

End Py.

(** ** ScraperLogic.parse_json_ld *)

Module JsonLd.
Import Py.

(** The body of the [try] block runs against the dict [data_found], which
    it updates in place, and either completes or raises. *)
Definition M (A : Type) : Type :=
  gmap string json → gmap string json * result A.

#[export] Instance M_ret : MRet M := λ A a data_found, (data_found, Ok a).

#[export] Instance M_bind : MBind M := λ A B k m data_found,
  match m data_found with
  | (data_found', Ok a) => k a data_found'
  | (data_found', Raise e) => (data_found', Raise e)
  end.

(** An expression that may raise and leaves [data_found] alone. *)
Definition eval {A} (r : result A) : M A := λ data_found, (data_found, r).

(** [data_found[key] = v] *)
Definition setitem (key : string) (v : json) : M unit :=
  λ data_found, (<[key := v]> data_found, Ok ()).

(** [data[0] if data else {}] for a list [data] *)
Definition first_or_empty (data : json) : json :=
  match data with
  | JList (x :: _) => x
  | _ => JDict []
  end.

(** Lines 95-103; [loaded] is the outcome of [json.loads(script.string)],
    an exception when the text is not JSON or the tag has no single
    string. *)
Definition try_body (loaded : result json) : M unit :=
  data ← eval loaded;
  let data := if isinstance_list data then first_or_empty data else data in
  has_name ← eval (contains "name" data);
  (if has_name : bool
   then v ← eval (getitem data "name"); setitem "name" v
   else mret ());;
  has_description ← eval (contains "description" data);
  (if has_description : bool
   then v ← eval (getitem data "description"); setitem "description" v
   else mret ());;
  has_offers ← eval (contains "offers" data);
  if has_offers : bool
  then
    offers ← eval (getitem data "offers");
    offer ← (if isinstance_dict offers then mret offers
             else eval (getitem0 offers));
    currency ← eval (get offer "priceCurrency" (JStr ""));
    price ← eval (get offer "price" (JStr ""));
    setitem "price" (JStr (str currency +:+ " " +:+ str price))
  else mret ().

(** One turn of the loop: [except: continue] drops the exception and
    keeps whatever the body had already stored. *)
Definition loop_step (data_found : gmap string json) (loaded : result json)
  : gmap string json :=
  (try_body loaded data_found).1.

(** [scripts] lists, in document order, the outcome of [json.loads] on
    each [<script type="application/ld+json">]. *)
Definition parse_json_ld (scripts : list (result json)) : gmap string json :=
  foldl loop_step ∅ scripts.

End JsonLd.

(** ** ScraperLogic.smart_clean_html *)

Module Context.

(** What BeautifulSoup gives for [html_content] once the non-content tags
    are decomposed: [str(soup.body) if soup.body else str(soup)] and
    [soup.get_text(separator="\n", strip=True)]. *)
Record cleaned : Type := Cleaned {
  body_text : string;
  text_structure : string
}.

(** Lines 73-85. [target_keyword] is [None] when the argument is left to
    its default. *)
Definition smart_clean_html (soup : cleaned) (target_keyword : option string)
  : string * string :=
  let text_structure := soup.(text_structure) in
  let body_text := soup.(body_text) in
  let whole := (PyStr.slice_to body_text 4000, text_structure) in
  match target_keyword with
  | Some keyword =>
      if PyStr.truthy keyword then
        let idx := PyStr.find (PyStr.lower body_text) (PyStr.lower keyword) in
        if negb (idx =? -1) then
          let start := Z.max 0 (idx - 500) in
          let stop := Z.min (PyStr.len body_text) (idx + 1500) in
          ("..." +:+ PyStr.slice body_text start stop +:+ "...", text_structure)
        else whole
      else whole
  | None => whole
  end.

End Context.

(** ** smart_clean_html on text that [str.lower] lengthens

    On the code points U+0000 .. U+00FF [str.lower] gives one code point
    for each one it reads. One code point of Unicode breaks that rule: the
    capital I with dot above, U+0130, is lowered to the two code points
    U+0069 U+0307. The texts of this module are over U+0000 .. U+00FF and
    these two code points, and lines 73-85 are embedded a second time on
    them, with the same operations in the same order. *)

Module Unicode.

Inductive code_point : Type :=
| Latin1 (c : ascii)
| capital_I_dot
| combining_dot.

#[global] Instance code_point_eq_dec : EqDecision code_point.
Proof. solve_decision. Defined.

Definition text : Type := list code_point.

(** A text of U+0000 .. U+00FF, read as a text of this module. *)
Fixpoint of_str (s : string) : text :=
  match s with
  | EmptyString => []
  | String c s' => Latin1 c :: of_str s'
  end.

(** [c.lower()] for a text of one code point: U+0130 gives [i] and the
    combining dot above, U+0307, which has no case. *)
Definition lower_point (c : code_point) : text :=
  match c with
  | Latin1 a => [Latin1 (PyStr.lower_char a)]
  | capital_I_dot => [Latin1 "i"; combining_dot]
  | combining_dot => [combining_dot]
  end.

(** [s.lower()] *)
Fixpoint lower (s : text) : text :=
  match s with
  | [] => []
  | c :: s' => lower_point c ++ lower s'
  end.

(** [s.startswith(p)] *)
Fixpoint startswith (p s : text) : bool :=
  match p, s with
  | [], _ => true
  | _ :: _, [] => false
  | a :: p', b :: s' => if bool_decide (a = b) then startswith p' s' else false
  end.

(** [s.find(sub)], searching from position [i] on. *)
Fixpoint find_from (i : Z) (s sub : text) : Z :=
  if startswith sub s then i
  else match s with
       | [] => -1
       | _ :: s' => find_from (i + 1) s' sub
       end.

Definition find (s sub : text) : Z := find_from 0 s sub.

(** [len(s)] *)
Definition len (s : text) : Z := Z.of_nat (length s).

(** [s[start:end]], with the bounds normalised as [PyStr.clip] does; the
    slice is empty when the first bound is past the second. *)
Definition slice (s : text) (start stop : Z) : text :=
  let lo := PyStr.clip (len s) start in
  let hi := PyStr.clip (len s) stop in
  take (Z.to_nat (hi - lo)) (drop (Z.to_nat lo) s).

(** [s[:stop]] *)
Definition slice_to (s : text) (stop : Z) : text := slice s 0 stop.

(** [bool(s)] *)
Definition truthy (s : text) : bool :=
  match s with
  | [] => false
  | _ => true
  end.

(** [str(soup.body) if soup.body else str(soup)] and [soup.get_text(...)],
    as in [Context.cleaned]. *)
Record cleaned : Type := Cleaned {
  body_text : text;
  text_structure : text
}.

(** Lines 73-85. *)
Definition smart_clean_html (soup : cleaned) (target_keyword : option text)
  : text * text :=
  let text_structure := soup.(text_structure) in
  let body_text := soup.(body_text) in
  let whole := (slice_to body_text 4000, text_structure) in
  match target_keyword with
  | Some keyword =>
      if truthy keyword then
        let idx := find (lower body_text) (lower keyword) in
        if negb (idx =? -1) then
          let start := Z.max 0 (idx - 500) in
          let stop := Z.min (len body_text) (idx + 1500) in
          (of_str "..." ++ slice body_text start stop ++ of_str "...",
           text_structure)
        else whole
      else whole
  | None => whole
  end.

(** [sub] occurs in [s] at index [i]. *)
Definition occurs_at (s sub : text) (i : Z) : Prop :=
  ∃ before after, s = before ++ sub ++ after ∧ len before = i.

(** [i] is the index of the first occurrence of [sub] in [s]. *)
Definition first_match (s sub : text) (i : Z) : Prop :=
  occurs_at s sub i ∧ ∀ j, occurs_at s sub j → i ≤ j.

(** [window] is the text of [s] from index [a] up to, not including,
    index [b]. *)
Definition is_slice (s : text) (a b : Z) (window : text) : Prop :=
  ∃ before after,
    s = before ++ window ++ after
    ∧ len before = a
    ∧ len before + len window = b.

(** The keyword matches the text at index [i], whatever the case of the
    letters: the stretch of [len(keyword)] code points that starts at [i]
    and the keyword have the same lower case. *)
Definition matches_at (s keyword : text) (i : Z) : Prop :=
  0 ≤ i ∧ i + len keyword ≤ len s
  ∧ lower (slice s i (i + len keyword)) = lower keyword.

(** The window the reducer is to return for a match at index [idx]. *)
Definition window_at (s : text) (idx : Z) : text :=
  of_str "..." ++ slice s (Z.max 0 (idx - 500)) (Z.min (len s) (idx + 1500))
  ++ of_str "...".

(** The reducer returns the first 4000 code points of the body, or all of
    it when it is shorter. *)
Definition returns_head (soup : cleaned) (target_keyword : option text) : Prop :=
  ∃ head,
    is_slice (body_text soup) 0 (Z.min 4000 (len (body_text soup))) head
    ∧ smart_clean_html soup target_keyword = (head, text_structure soup).

(** A page whose body opens with 600 capital dotted I. *)
Definition dotted_page : cleaned :=
  Cleaned
    (of_str "<body>" ++ replicate 600 capital_I_dot
     ++ of_str "<p>price 51.77</p></body>")
    (replicate 600 capital_I_dot ++ of_str PyStr.nl ++ of_str "price 51.77").

End Unicode.

(** ** Events and the log *)

Module Trace.
Import Py.

(** Messages the script shows: [status.write], [status.update],
    [st.toast], [st.error], [st.success], [st.balloons]. *)
Inductive message : Type :=
| MissingInput                      (* Please enter a URL and Intent. *)
| Connecting (url : string)
| LoadFailedMsg                     (* Failed to load page. *)
| TryingCache (selector : string)
| CacheFailed                       (* Cache Failed! Element not found. *)
| CheckingJsonLd
| FoundInMetadata (value : string)
| Extracted (value : string)
| Engaging                          (* Engaging AI Healing Protocol... *)
| Focusing (subject : string)
| Generating                        (* Generating new CSS Selector... *)
| Suggested (selector : option string)
| HealedSelector (value : string)
| SelectorFailed                    (* Selector failed. Switching ... *)
| Fallback                          (* Fallback: Reading Page Text... *)
| HealedText (value : string)
| SuccessMsg (value : string)
| Balloons
| AllFailed                         (* All strategies failed. *)
| StealthToast                      (* Anti-Bot Detected: ... *)
| OllamaError.                      (* Ollama Connection Error: ... *)

(** Temperatures are the decimal literals of the source, in hundredths. *)
Inductive event : Type :=
| Ui (m : message)
| ChromeLaunch (arguments : list string)
| DriverGet (url : string)
| Sleep (seconds : Z)
| SleepHalf                         (* time.sleep(0.5) *)
| PageSource
| DriverQuit
| RequestsGet (url user_agent : string) (timeout : Z)
| OllamaPost (model prompt : string) (temperature_hundredths : Z)
             (num_ctx : Z) (timeout : Z)
| SelectOne (selector : option string).

(** A computation that appends to the log and either yields a value or
    leaves with an [X]: an exception for the fetcher, the end of the
    script run for the main block. *)
Definition prog (X A : Type) : Type :=
  list event → list event * (A + X).

#[export] Instance prog_ret {X} : MRet (prog X) := λ A a log, (log, inl a).

#[export] Instance prog_bind {X} : MBind (prog X) := λ A B k m log,
  match m log with
  | (log', inl a) => k a log'
  | (log', inr x) => (log', inr x)
  end.

Definition emit {X} (e : event) : prog X unit :=
  λ log, (log ++ [e], inl ()).

Definition leave {X A} (x : X) : prog X A :=
  λ log, (log, inr x).

(** The outcome of a library call that may raise. *)
Definition call {A} (r : result A) : prog exn A :=
  match r with
  | Ok a => mret a
  | Raise e => leave e
  end.

(** [try: body finally: cleanup] *)
Definition try_finally {A} (body : prog exn A) (cleanup : prog exn unit)
  : prog exn A :=
  λ log,
    match body log with
    | (log', outcome) =>
        match cleanup log' with
        | (log'', inl _) => (log'', outcome)
        | (log'', inr e) => (log'', inr e)
        end
    end.

(** [try: body except ...: handler], for a handler that catches all. *)
Definition try_except {A} (body : prog exn A) (handler : prog exn A)
  : prog exn A :=
  λ log,
    match body log with
    | (log', inl a) => (log', inl a)
    | (log', inr _) => handler log'
    end.

(** [m] only adds to the end of the log, and what it adds and yields
    does not depend on what the log already holds. *)
Definition appends {X A} (m : prog X A) : Prop :=
  ∀ log, m log = (log ++ (m []).1, (m []).2).

End Trace.

(** ** fetch_html *)

Module Fetch.
Import Py Trace.

(** The two fetch backends. [SELENIUM_AVAILABLE] is the flag set by the
    guarded import at the top of the script. *)
Record backend : Type := Backend {
  SELENIUM_AVAILABLE : bool;
  chrome : result unit;                  (* uc.Chrome(options=options) *)
  driver_get : string → result unit;     (* driver.get(url) *)
  page_source : result string;           (* driver.page_source *)
  driver_quit : result unit;             (* driver.quit() *)
  requests_get : string → result string  (* requests.get(...).text *)
}.

Definition ANTI_BOT_SITES : list string :=
  ["stockx.com"; "nike.com"; "adidas.com"; "footlocker.com"; "shopify.com"].

Definition user_agent : string :=
  "Mozilla/5.0 (Macintosh; Intel Mac OS X 10_15_7)".

(** [any(x in url for x in ANTI_BOT_SITES)] *)
Definition is_hard_target (url : string) : bool :=
  existsb (λ x, PyStr.contains x url) ANTI_BOT_SITES.

Definition fetch_html (b : backend) (url : string) : prog exn (option string) :=
  if is_hard_target url && SELENIUM_AVAILABLE b then
    emit (Ui StealthToast);;
    emit (ChromeLaunch ["--headless"; "--disable-gpu"]);;
    call (chrome b);;
    try_finally
      (emit (DriverGet url);;
       call (driver_get b url);;
       emit (Sleep 5);;
       emit PageSource;;
       source ← call (page_source b);
       mret (Some source))
      (emit DriverQuit;;
       call (driver_quit b))
  else
    try_except
      (emit (RequestsGet url user_agent 10);;
       text ← call (requests_get b url);
       mret (Some text))
      (mret None).

End Fetch.

(** ** The Ollama interface *)

Module Ollama.
Import Py Trace.

Definition OLLAMA_MODEL : string := "dom-specialist".

(** The answer to [requests.post]: a status code with the outcome of
    [response.json()['response']], or an exception. *)
Inductive reply : Type :=
| Reply (status_code : Z) (response : result string)
| NoReply (e : exn).

Definition endpoint : Type := string → Z → reply.

Definition ask_ollama {X} (post : endpoint) (prompt : string)
    (temperature_hundredths : Z) : prog X (option string) :=
  emit (OllamaPost OLLAMA_MODEL prompt temperature_hundredths 8192 30);;
  match post prompt temperature_hundredths with
  | Reply status_code response =>
      if status_code =? 200 then
        match response with
        | Ok text => mret (Some (PyStr.strip text))
        | Raise _ => emit (Ui OllamaError);; mret None
        end
      else mret None
  | NoReply _ => emit (Ui OllamaError);; mret None
  end.

Definition selector_prompt (html_snippet intent : string) : string :=
  PyStr.lines
    [ "<|im_start|>system";
      "You are a DOM-aware agent. Return ONLY the CSS selector for the user's intent. Do not explain.<|im_end|>";
      "<|im_start|>user";
      "Intent: " +:+ intent;
      "HTML:";
      html_snippet +:+ "<|im_end|>";
      "<|im_start|>assistant" ].

Definition generate_selector {X} (post : endpoint) (html_snippet intent : string)
  : prog X (option string) :=
  ask_ollama post (selector_prompt html_snippet intent) 10.

Definition extraction_prompt (text_context intent : string) : string :=
  PyStr.lines
    [ "<|im_start|>system";
      "Extract the exact answer. ";
      "- Return ONLY the entity requested.";
      "- If asked for Director, do NOT return Actors.";
      "- If asked for Price, do NOT return Tax.<|im_end|>";
      "<|im_start|>user";
      "Request: " +:+ intent;
      "Context:";
      text_context +:+ "<|im_end|>";
      "<|im_start|>assistant" ].

Definition direct_extraction {X} (post : endpoint) (text_context intent : string)
  : prog X (option string) :=
  ask_ollama post (extraction_prompt text_context intent) 5.

End Ollama.

(** ** The main block: what the Launch button runs *)

Module Agent.
Import Py Trace.

Inductive strategy : Type :=
| Cache | StructuredData | Selector | TextFallback.

(** How a run ends. [Crashed] is an exception that leaves [fetch_html]
    and the script with it. *)
Inductive outcome : Type :=
| NoInput
| LoadFailed
| Crashed (e : exn)
| Success (by_strategy : strategy) (value : string)
| Failed.

(** [soup.select_one(selector)]: an exception, [None], or an element,
    of which the script reads [get_text(strip=True)]. *)
Inductive selection : Type :=
| SelectRaised
| NoElement
| Element (text : string).

#[export] Instance json_inhabited : Inhabited json := populate JNull.

(** Everything outside the script. The page-dependent answers take the
    fetched [html]. *)
Record world : Type := World {
  web : Fetch.backend;
  ld_json : string → list (result json);
  clean : string → Context.cleaned;
  select_one : string → option string → selection;
  ollama : Ollama.endpoint
}.

(** [st.stop()] ends the script run at once. Streamlit raises its stop
    signal at the call and again at every later [st] call of the run, so
    the bare [except:] around strategy A, whose handler starts with
    [status.write], does not resume the script. *)
Definition st_stop {A} (o : outcome) : prog outcome A := leave o.

(** An exception out of [fetch_html] is not caught by the main block. *)
Definition uncaught {A} (m : prog exn A) : prog outcome A :=
  λ log,
    match m log with
    | (log', inl a) => (log', inl a)
    | (log', inr e) => (log', inr (Crashed e))
    end.

Definition check_input (url intent : string) : prog outcome unit :=
  if negb (PyStr.truthy url) || negb (PyStr.truthy intent)
  then emit (Ui MissingInput);; st_stop NoInput
  else mret ().

(** 1. Fetch *)
Definition fetch_page (w : world) (url : string) : prog outcome string :=
  emit (Ui (Connecting url));;
  fetched ← uncaught (Fetch.fetch_html (web w) url);
  match fetched with
  | Some html =>
      if PyStr.truthy html then mret html
      else emit (Ui LoadFailedMsg);; st_stop LoadFailed
  | None => emit (Ui LoadFailedMsg);; st_stop LoadFailed
  end.

(** 2. Try Cache (Simulation) *)
Definition try_cache (simulate_break : bool) : prog outcome unit :=
  let cached_selector :=
    if simulate_break then Some ".old-broken-selector" else None in
  match cached_selector with
  | Some selector =>
      emit (Ui (TryingCache selector));;
      emit SleepHalf;;
      emit (Ui CacheFailed)
  | None => mret ()
  end.

(** 3. Try JSON-LD: the test on [subject] and [json_data] *)
Definition try_json_ld (json_data : gmap string json) (subject : string)
  : prog outcome unit :=
  if PyStr.contains "price" subject
     && bool_decide (is_Some (json_data !! "price"))
  then
    let value := str (json_data !!! "price") in
    emit (Ui (FoundInMetadata value));;
    emit (Ui (Extracted value));;
    st_stop (Success StructuredData value)
  else mret ().

(** Strategy A: Generate Selector *)
Definition strategy_a (w : world) (html focused_html intent : string)
  : prog outcome unit :=
  emit (Ui Generating);;
  new_selector ← Ollama.generate_selector (ollama w) focused_html intent;
  emit (Ui (Suggested new_selector));;
  emit (SelectOne new_selector);;
  match select_one w html new_selector with
  | Element text =>
      if 0 <? PyStr.len text then
        emit (Ui (HealedSelector text));;
        emit (Ui (SuccessMsg text));;
        emit (Ui Balloons);;
        st_stop (Success Selector text)
      else mret ()
  | NoElement => mret ()
  | SelectRaised => emit (Ui SelectorFailed)
  end.

(** Strategy B: Direct Text Extraction (Fallback) *)
Definition strategy_b (w : world) (text_structure intent : string)
  : prog outcome outcome :=
  emit (Ui Fallback);;
  direct_result ←
    Ollama.direct_extraction (ollama w) (PyStr.slice_to text_structure 4000) intent;
  match direct_result with
  | Some answer =>
      if PyStr.truthy answer then
        emit (Ui (HealedText answer));;
        emit (Ui (SuccessMsg answer));;
        emit (Ui Balloons);;
        mret (Success TextFallback answer)
      else emit (Ui AllFailed);; mret Failed
  | None => emit (Ui AllFailed);; mret Failed
  end.

(** Lines 209-259: the cascade of strategies on a loaded page. *)
Definition cascade (w : world) (html intent : string) (simulate_break : bool)
  : prog outcome outcome :=
  try_cache simulate_break;;
  emit (Ui CheckingJsonLd);;
  let json_data := JsonLd.parse_json_ld (ld_json w html) in
  let subject := Subject.extract_subject intent in
  try_json_ld json_data subject;;
  (* 4. Trigger AI Healing *)
  emit (Ui Engaging);;
  emit (Ui (Focusing subject));;
  let '(focused_html, text_structure) :=
    Context.smart_clean_html (clean w html) (Some subject) in
  strategy_a w html focused_html intent;;
  strategy_b w text_structure intent.

(** Lines 193-259, in the order of the script. *)
Definition launch_agent (w : world) (url intent : string) (simulate_break : bool)
  : prog outcome outcome :=
  check_input url intent;;
  html ← fetch_page w url;
  cascade w html intent simulate_break.

(** The block ends at its last line or at an [st.stop()]. *)
Definition ended (r : outcome + outcome) : outcome :=
  match r with
  | inl o => o
  | inr o => o
  end.

(** A run from an empty log: the log it leaves and how it ended. *)
Definition run (w : world) (url intent : string) (simulate_break : bool)
  : list event * outcome :=
  let '(log, r) := launch_agent w url intent simulate_break [] in
  (log, ended r).

End Agent.

(** ** The vocabulary of the design document *)

Module Design.
Import Py Trace Agent.

(** [word s]: every character of [s] is in the class [\w]. *)
Fixpoint word (s : string) : bool :=
  match s with
  | EmptyString => true
  | String c s' => PyStr.is_word_char c && word s'
  end.

(** A word token in lower case: it has a character, all its characters
    are word characters, and lowering leaves it as it is. *)
Definition token (w : string) : Prop :=
  w ≠ "" ∧ word w = true ∧ PyStr.lower w = w.


(** [sub] occurs in [s] at index [i]. *)
Definition occurs_at (s sub : string) (i : Z) : Prop :=
  ∃ before after, s = before +:+ sub +:+ after ∧ PyStr.len before = i.

(** [i] is the index of the first occurrence of [sub] in [s]. *)
Definition first_match (s sub : string) (i : Z) : Prop :=
  occurs_at s sub i ∧ ∀ j, occurs_at s sub j → i ≤ j.

(** [window] is the text of [s] from index [a] up to, not including,
    index [b]. *)
Definition is_slice (s : string) (a b : Z) (window : string) : Prop :=
  ∃ before after,
    s = before +:+ window +:+ after
    ∧ PyStr.len before = a
    ∧ PyStr.len before + PyStr.len window = b.

(** The reducer returns the first 4000 characters of the body, or all of
    it when it is shorter. *)
Definition returns_head (soup : Context.cleaned) (target_keyword : option string)
  : Prop :=
  ∃ head,
    is_slice (Context.body_text soup) 0
      (Z.min 4000 (PyStr.len (Context.body_text soup))) head
    ∧ Context.smart_clean_html soup target_keyword
      = (head, Context.text_structure soup).

(** What a script block, taken alone, leaves in a field. *)
Definition written (loaded : result json) (field : string) : option json :=
  JsonLd.loop_step ∅ loaded !! field.

(** C2 as the design document words it: the first block that writes a
    field decides it, whatever follows. *)
Definition first_wins : Prop :=
  ∀ (earlier : list (result json)) (block : result json)
    (later : list (result json)) (field : string) (v : json),
    field ∈ ["name"; "description"; "price"] →
    Forall (λ b, written b field = None) earlier →
    written block field = Some v →
    JsonLd.parse_json_ld (earlier ++ block :: later) !! field = Some v.

(** How a sub-field of the offer shows in the price: its [str], or
    nothing when the offer has no such key. *)
Definition shown (offer_items : list (string * json)) (key : string) : string :=
  match assoc offer_items key with
  | Some v => str v
  | None => ""
  end.

(** [v] is an object with the given items, or an array whose first
    element is such an object. *)
Definition heads (v : json) (items : list (string * json)) : Prop :=
  v = JDict items ∨ ∃ rest, v = JList (JDict items :: rest).

(** The states of the cascade. *)
Inductive state : Type :=
| Init | CacheCheck | StructuredDataCheck | SelectorHealing
| TextFallbackCheck | SuccessState | FailedState.

(** Position in the cascade; the two terminal states share the last one. *)
Definition rank (s : state) : nat :=
  match s with
  | Init => 0
  | CacheCheck => 1
  | StructuredDataCheck => 2
  | SelectorHealing => 3
  | TextFallbackCheck => 4
  | SuccessState | FailedState => 5
  end%nat.

(** The event with which the script enters a state: the first message of
    the numbered section, or the message that reports the verdict. *)
Definition enters (e : event) : option state :=
  match e with
  | Ui (Connecting _) => Some Init
  | Ui (TryingCache _) => Some CacheCheck
  | Ui CheckingJsonLd => Some StructuredDataCheck
  | Ui Engaging => Some SelectorHealing
  | Ui Fallback => Some TextFallbackCheck
  | Ui (FoundInMetadata _) | Ui (HealedSelector _) | Ui (HealedText _) =>
      Some SuccessState
  | Ui AllFailed | Ui LoadFailedMsg => Some FailedState
  | _ => None
  end.

(** The states a run went through, in order. *)
Definition path (log : list event) : list state := omap enters log.

(** The state in which each strategy works. *)
Definition stage_of (s : strategy) : state :=
  match s with
  | Cache => CacheCheck
  | StructuredData => StructuredDataCheck
  | Selector => SelectorHealing
  | TextFallback => TextFallbackCheck
  end.

(** Events that only report: they query no backend. *)
Definition reports (e : event) : bool :=
  match e with
  | Ui _ => true
  | _ => false
  end.

(** The host of a URL: what stands between [://] and the next [/], [?]
    or [#]. *)
Fixpoint until_delimiter (s : string) : string :=
  match s with
  | EmptyString => EmptyString
  | String c s' =>
      if (Ascii.eqb c "/" || Ascii.eqb c "?" || Ascii.eqb c "#")%char
      then EmptyString
      else String c (until_delimiter s')
  end.

Fixpoint after_scheme (s : string) : string :=
  if PyStr.startswith "://" s then PyStr.slice s 3 (PyStr.len s)
  else match s with
       | EmptyString => EmptyString
       | String _ s' => after_scheme s'
       end.

Definition url_host (url : string) : string :=
  until_delimiter (if PyStr.contains "://" url then after_scheme url else url).

(** The host names one of the listed domains, in the loosest reading:
    the domain occurs in the host. *)
Definition host_matches (url : string) : bool :=
  existsb (λ x, PyStr.contains x (url_host url)) Fetch.ANTI_BOT_SITES.

(** Which fetch a log shows. *)
Definition used_stealth (log : list event) : bool :=
  existsb (λ e, match e with ChromeLaunch _ => true | _ => false end) log.

(** The calls the healing strategies make: to the model, and of the
    candidate selector against the page. *)
Definition healing_call (e : event) : bool :=
  match e with
  | OllamaPost _ _ _ _ _ | SelectOne _ => true
  | _ => false
  end.

(** What [fetch_html] returns for a URL, when it returns. *)
Definition fetched (w : world) (url : string) : exn + option string :=
  match (Fetch.fetch_html (web w) url []).2 with
  | inl page => inr page
  | inr e => inl e
  end.

(** A run on usable input: both fields are filled in and the fetch
    returns the non-empty page [html]. *)
Definition loads (w : world) (url intent html : string) : Prop :=
  url ≠ "" ∧ intent ≠ "" ∧ html ≠ "" ∧ fetched w url = inr (Some html).

(** What [ask_ollama] returns for a prompt. *)
Definition asked (post : Ollama.endpoint) (prompt : string) (temperature : Z)
  : option string :=
  match (Ollama.ask_ollama (X := Empty_set) post prompt temperature []).2 with
  | inl answer => answer
  | inr impossible => match impossible with end
  end.

(** The window that goes into the selector prompt, and the text that
    goes into the extraction prompt. *)
Definition focused_html (w : world) (html intent : string) : string :=
  (Context.smart_clean_html (clean w html)
     (Some (Subject.extract_subject intent))).1.

Definition page_text (w : world) (html intent : string) : string :=
  PyStr.slice_to
    (Context.smart_clean_html (clean w html)
       (Some (Subject.extract_subject intent))).2 4000.

(** The candidate selector the model proposes for a page and an intent. *)
Definition candidate (w : world) (html intent : string) : option string :=
  asked (ollama w) (Ollama.selector_prompt (focused_html w html intent) intent) 10.

(** The answer of the text fallback. *)
Definition direct_answer (w : world) (html intent : string) : option string :=
  asked (ollama w) (Ollama.extraction_prompt (page_text w html intent) intent) 5.

(** The test of the structured-data stage. *)
Definition price_found (w : world) (html intent : string) : bool :=
  PyStr.contains "price" (Subject.extract_subject intent)
  && bool_decide (is_Some (JsonLd.parse_json_ld (ld_json w html) !! "price")).

(** C1 as the design document words it: a subject that is part of the
    name of a field the record has ends the run with that field. *)
Definition loose_match : Prop :=
  ∀ (w : world) (url intent html : string) (simulate_break : bool)
    (key : string) (v : json),
    loads w url intent html →
    PyStr.contains (Subject.extract_subject intent) key = true →
    JsonLd.parse_json_ld (ld_json w html) !! key = Some v →
    (run w url intent simulate_break).2 = Success StructuredData (str v).

(** C6 as the design document words it: the stealth browser is used
    exactly when the host of the URL matches the list and Selenium can
    be loaded. *)
Definition host_rule : Prop :=
  ∀ (b : Fetch.backend) (url : string),
    used_stealth (Fetch.fetch_html b url []).1
    = host_matches url && Fetch.SELENIUM_AVAILABLE b.

End Design.

(** ** Closed forms of the runs

    What each section of the script logs and decides, written out as
    values; the lemmas of Part II show that the script computes them. *)

Module Forms.
Import Py Trace Agent Design.

(** A sequence of assignments [data_found[k] = v], made in order. *)
Definition assign_all (ws : list (string * json)) (data_found : gmap string json)
  : gmap string json :=
  foldl (λ d kv, <[kv.1 := kv.2]> d) data_found ws.

(** [m] reads nothing of [data_found]: all it does to the dict is a
    fixed sequence of assignments. *)
Definition assigns_only {A} (m : JsonLd.M A) : Prop :=
  ∃ ws r, ∀ data_found, m data_found = (assign_all ws data_found, r).

(** The states from the structured-data check up to a given stage. *)
Definition stages_to (s : state) : list state :=
  match s with
  | StructuredDataCheck => [StructuredDataCheck]
  | SelectorHealing => [StructuredDataCheck; SelectorHealing]
  | TextFallbackCheck => [StructuredDataCheck; SelectorHealing; TextFallbackCheck]
  | _ => []
  end.

(** What [ask_ollama] logs after the request itself: the error message,
    if any. *)
Definition noise (post : Ollama.endpoint) (prompt : string) (temperature : Z)
  : list event :=
  tail (Ollama.ask_ollama (X := Empty_set) post prompt temperature []).1.

(** What the cache section logs. *)
Definition cache_log (simulate_break : bool) : list event :=
  if simulate_break
  then [Ui (TryingCache ".old-broken-selector"); SleepHalf; Ui CacheFailed]
  else [].

(** The log of strategy A up to the test of the candidate. *)
Definition selector_log (w : world) (html intent : string) : list event :=
  let prompt := Ollama.selector_prompt (focused_html w html intent) intent in
  [Ui Generating; OllamaPost Ollama.OLLAMA_MODEL prompt 10 8192 30]
  ++ noise (ollama w) prompt 10
  ++ [Ui (Suggested (candidate w html intent)); SelectOne (candidate w html intent)].

(** The log and the verdict of strategy B. *)
Definition fallback_run (w : world) (html intent : string)
  : list event * outcome :=
  let prompt := Ollama.extraction_prompt (page_text w html intent) intent in
  let asking :=
    [Ui Fallback; OllamaPost Ollama.OLLAMA_MODEL prompt 5 8192 30]
    ++ noise (ollama w) prompt 5 in
  match direct_answer w html intent with
  | Some answer =>
      if PyStr.truthy answer
      then (asking ++ [Ui (HealedText answer); Ui (SuccessMsg answer); Ui Balloons],
            Success TextFallback answer)
      else (asking ++ [Ui AllFailed], Failed)
  | None => (asking ++ [Ui AllFailed], Failed)
  end.

(** The log and the verdict of the healing section. *)
Definition healing_run (w : world) (html intent : string)
  : list event * outcome :=
  let start :=
    [Ui Engaging; Ui (Focusing (Subject.extract_subject intent))]
    ++ selector_log w html intent in
  let fall_back (said : list event) :=
    (start ++ said ++ (fallback_run w html intent).1,
     (fallback_run w html intent).2) in
  match select_one w html (candidate w html intent) with
  | Element text =>
      if 0 <? PyStr.len text
      then (start ++ [Ui (HealedSelector text); Ui (SuccessMsg text); Ui Balloons],
            Success Selector text)
      else fall_back []
  | NoElement => fall_back []
  | SelectRaised => fall_back [Ui SelectorFailed]
  end.

(** The log and the verdict of the cascade. *)
Definition cascade_run (w : world) (html intent : string) (simulate_break : bool)
  : list event * outcome :=
  let checking := cache_log simulate_break ++ [Ui CheckingJsonLd] in
  if price_found w html intent then
    let value := str (JsonLd.parse_json_ld (ld_json w html) !!! "price") in
    (checking ++ [Ui (FoundInMetadata value); Ui (Extracted value)],
     Success StructuredData value)
  else
    (checking ++ (healing_run w html intent).1, (healing_run w html intent).2).

(** An event of the fetcher: it enters no state and asks nothing of the
    model or of the page. *)
Definition quiet (e : event) : Prop :=
  enters e = None ∧ healing_call e = false.

End Forms.

(** ** Sample backends and pages *)

Module Samples.
Import Py Trace Agent.

Definition page : string :=
  "<html><body><p class='price'>51.77</p></body></html>".

(** Selenium is not installed; [requests] returns [text]. *)
Definition plain_web (text : string) : Fetch.backend :=
  Fetch.Backend false (Raise WebDriverException)
    (λ _, Raise WebDriverException) (Raise WebDriverException) (Ok ())
    (λ _, Ok text).

(** Selenium is installed and the browser starts, but navigation fails. *)
Definition stuck_browser : Fetch.backend :=
  Fetch.Backend true (Ok ()) (λ _, Raise WebDriverException) (Ok page) (Ok ())
    (λ _, Ok page).

(** Selenium is installed and the browser renders [page]. *)
Definition stealth_web : Fetch.backend :=
  Fetch.Backend true (Ok ()) (λ _, Ok ()) (Ok page) (Ok ()) (λ _, Ok page).

(** The model endpoint cannot be reached. *)
Definition no_model : Ollama.endpoint := λ _ _, Ollama.NoReply ConnectionError.

(** The model proposes a selector at temperature 0.1 and an answer at
    temperature 0.05. *)
Definition model (selector answer : string) : Ollama.endpoint :=
  λ _ temperature,
    Ollama.Reply 200 (Ok (if temperature =? 10 then selector else answer)).

(** The page has one element with text 51.77, which [p.price] selects. *)
Definition select_price (selector : option string) : selection :=
  match selector with
  | Some "p.price" => Element "51.77"
  | Some "" | None => SelectRaised
  | Some _ => NoElement
  end.

Definition world_of (blocks : list (result json)) (post : Ollama.endpoint) : world :=
  World (plain_web page) (λ _, blocks) (λ html, Context.Cleaned html "51.77")
    (λ _, select_price) post.

Definition book : json :=
  JDict [("name", JStr "A Light in the Attic");
         ("offers", JDict [("price", JStr "24.99"); ("priceCurrency", JStr "GBP")])].

Definition lamp : json :=
  JDict [("description", JStr "A desk lamp")].

End Samples.

(** ** Further vocabulary: invariants and counts *)

Module Props.
Import Py Trace Agent Design.

(** The fields [parse_json_ld] can store. *)
Definition fields : list string := ["name"; "description"; "price"].

(** What holds of every record the extractor builds: its keys are among
    the three fields, and its price is a [str] with a space in it. *)
Definition record_ok (data_found : gmap string json) : Prop :=
  (∀ k v, data_found !! k = Some v → k ∈ fields)
  ∧ (∀ v, data_found !! "price" = Some v →
          ∃ s, v = JStr s ∧ PyStr.contains " " s = true).

(** [m] keeps the property [P] of [data_found], also when it raises. *)
Definition keeps {A} (P : gmap string json → Prop) (m : JsonLd.M A) : Prop :=
  ∀ data_found, P data_found → P (m data_found).1.

(** The number of events of a kind in a log. *)
Fixpoint count (kind : event → bool) (log : list event) : nat :=
  match log with
  | [] => 0
  | e :: rest => (if kind e then 1 else 0) + count kind rest
  end%nat.

Definition is_model_request (e : event) : bool :=
  match e with OllamaPost _ _ _ _ _ => true | _ => false end.

Definition is_selector_query (e : event) : bool :=
  match e with SelectOne _ => true | _ => false end.

Definition is_http_get (e : event) : bool :=
  match e with RequestsGet _ _ _ => true | _ => false end.

Definition is_browser_event (e : event) : bool :=
  match e with
  | ChromeLaunch _ | DriverGet _ | PageSource | DriverQuit => true
  | _ => false
  end.

(** The model never returns a completion: it is unreachable, answers with
    another status than 200, or its body has no usable [response]. *)
Definition model_silent (post : Ollama.endpoint) : Prop :=
  ∀ prompt temperature text,
    post prompt temperature ≠ Ollama.Reply 200 (Ok text).

End Props.

(* ===================================================================== *)
(** * Part II: properties                                                  *)
(* ===================================================================== *)

(** ** Strings *)

Section StringFacts.
Import PyStr Design Forms.

Lemma str_app_nil (t : string) : "" +:+ t = t.
Proof. reflexivity. Qed.

Lemma str_app_cons (c : ascii) (s t : string) :
  String c s +:+ t = String c (s +:+ t).
Proof. reflexivity. Qed.

Lemma str_length_app (a b : string) :
  String.length (a +:+ b) = (String.length a + String.length b)%nat.
Proof. induction a; rewrite ?str_app_cons, ?str_app_nil; simpl; congruence. Qed.

Lemma len_app (a b : string) : len (a +:+ b) = len a + len b.
Proof. unfold len. rewrite str_length_app. lia. Qed.

Lemma len_nonneg (s : string) : 0 ≤ len s.
Proof. unfold len. lia. Qed.

Lemma len_zero (s : string) : len s = 0 → s = "".
Proof. destruct s; [done|]. unfold len. simpl. lia. Qed.

Lemma lower_char_idemp (c : ascii) : lower_char (lower_char c) = lower_char c.
Proof. destruct c as [[] [] [] [] [] [] [] []]; vm_compute; reflexivity. Qed.

Lemma lower_app (a b : string) : lower (a +:+ b) = lower a +:+ lower b.
Proof. induction a; rewrite ?str_app_cons, ?str_app_nil; simpl; rewrite ?str_app_cons; congruence. Qed.

Lemma length_lower (s : string) : String.length (lower s) = String.length s.
Proof. induction s; simpl; congruence. Qed.

Lemma word_app (a b : string) : word (a +:+ b) = word a && word b.
Proof.
  induction a; rewrite ?str_app_cons, ?str_app_nil; simpl; [done|].
  rewrite IHa. by rewrite andb_assoc.
Qed.

Lemma flush_tokens (tok : string) :
  word tok = true → lower tok = tok → Forall token (flush tok).
Proof.
  intros Hw Hl. destruct tok; simpl; [constructor|].
  repeat constructor; done.
Qed.

Lemma scan_words_tokens (s tok : string) :
  word tok = true → lower tok = tok →
  Forall token (scan_words tok (lower s)).
Proof.
  revert tok. induction s as [|c s IH]; intros tok Hw Hl; simpl.
  - by apply flush_tokens.
  - destruct (is_word_char (lower_char c)) eqn:Hc.
    + apply IH.
      * rewrite word_app, Hw. simpl. by rewrite Hc.
      * rewrite lower_app, Hl. simpl. by rewrite lower_char_idemp.
    + apply Forall_app. split; [by apply flush_tokens|].
      by apply IH.
Qed.

Lemma findall_words_tokens (s : string) :
  Forall token (findall_words (lower s)).
Proof. by apply scan_words_tokens. Qed.



End StringFacts.

(** ** Searching and slicing *)

Section SliceFacts.
Import PyStr Design Forms.

Lemma startswith_spec (p s : string) :
  startswith p s = true ↔ ∃ after, s = p +:+ after.
Proof.
  revert s. induction p as [|a p IH]; intros s; simpl.
  - split; [|done]. intros _. by exists s.
  - destruct s as [|b s].
    + split; [done|]. intros [after H]. rewrite str_app_cons in H. done.
    + destruct (Ascii.eqb_spec a b) as [->|Hne].
      * rewrite IH. split; intros [after H]; exists after.
        -- rewrite str_app_cons. by rewrite H.
        -- rewrite str_app_cons in H. by injection H.
      * split; [done|]. intros [after H]. rewrite str_app_cons in H.
        injection H as ? ?. congruence.
Qed.

Lemma occurs_at_nonneg (s sub : string) (i : Z) : occurs_at s sub i → 0 ≤ i.
Proof. intros (before & after & _ & <-). apply len_nonneg. Qed.

Lemma occurs_at_zero (s sub : string) :
  occurs_at s sub 0 ↔ startswith sub s = true.
Proof.
  rewrite startswith_spec. split.
  - intros (before & after & -> & H0). apply len_zero in H0 as ->.
    by exists after.
  - intros [after ->]. by exists "", after.
Qed.

Lemma occurs_at_cons (c : ascii) (s sub : string) (j : Z) :
  occurs_at (String c s) sub j
  ↔ (j = 0 ∧ startswith sub (String c s) = true) ∨ occurs_at s sub (j - 1).
Proof.
  split.
  - intros (before & after & Heq & Hlen). destruct before as [|b before].
    + left. split; [by rewrite <- Hlen|].
      apply startswith_spec. exists after. by rewrite Heq.
    + right. rewrite str_app_cons in Heq. injection Heq as _ ->.
      exists before, after. split; [done|]. unfold len in *. simpl in Hlen. lia.
  - intros [[-> H]|(before & after & -> & Hlen)].
    + by apply occurs_at_zero.
    + exists (String c before), after.
      split; [by rewrite str_app_cons|]. unfold len in *. simpl. lia.
Qed.

(** [find_from] returns [-1] when [sub] occurs nowhere, and otherwise the
    start index plus the index of the first occurrence. *)
Lemma find_from_spec (s sub : string) (i : Z) :
  0 ≤ i →
  (find_from i s sub = -1 ∧ ∀ j, ¬ occurs_at s sub j) ∨
  (∃ k, find_from i s sub = i + k ∧ first_match s sub k).
Proof.
  revert i. induction s as [|c s IH]; intros i Hi.
  - simpl. destruct (startswith sub "") eqn:Hs.
    + right. exists 0. split; [lia|]. split.
      * by apply occurs_at_zero.
      * intros j Hj. by apply occurs_at_nonneg in Hj.
    + left. split; [done|]. intros j (before & after & Heq & _).
      destruct before; [|by rewrite str_app_cons in Heq].
      rewrite str_app_nil in Heq.
      assert (startswith sub "" = true); [|congruence].
      apply startswith_spec. by exists after.
  - simpl. destruct (startswith sub (String c s)) eqn:Hs.
    + right. exists 0. split; [lia|]. split.
      * by apply occurs_at_zero.
      * intros j Hj. by apply occurs_at_nonneg in Hj.
    + destruct (IH (i + 1)) as [[Hf Hno]|(k & Hf & Hocc & Hmin)]; [lia| |].
      * left. split; [done|]. intros j.
        rewrite occurs_at_cons. intros [[_ ?]|Hj]; [congruence|].
        by apply (Hno (j - 1)).
      * right. exists (k + 1). split; [lia|]. split.
        -- apply occurs_at_cons. right. by replace (k + 1 - 1) with k by lia.
        -- intros j. rewrite occurs_at_cons. intros [[_ ?]|Hj]; [congruence|].
           apply Hmin in Hj. lia.
Qed.

Lemma find_found (s sub : string) (idx : Z) :
  first_match s sub idx → find s sub = idx.
Proof.
  intros [Hocc Hmin]. unfold find.
  destruct (find_from_spec s sub 0) as [[_ Hno]|(k & -> & Hocc' & Hmin')]; [lia| |].
  - by destruct (Hno idx).
  - apply Hmin in Hocc'. apply Hmin' in Hocc. lia.
Qed.

Lemma find_missing (s sub : string) :
  (∀ i, ¬ occurs_at s sub i) → find s sub = -1.
Proof.
  intros Hno. unfold find.
  destruct (find_from_spec s sub 0) as [[? _]|(k & _ & Hocc & _)]; [lia|done|].
  by destruct (Hno k).
Qed.

Lemma substring_split (s : string) (n m : nat) :
  (n + m ≤ String.length s)%nat →
  ∃ before after,
    s = before +:+ String.substring n m s +:+ after
    ∧ String.length before = n
    ∧ String.length (String.substring n m s) = m.
Proof.
  revert n m. induction s as [|c s IH]; intros n m Hle; simpl in Hle.
  - assert (n = 0 ∧ m = 0)%nat as [-> ->] by lia. by exists "", "".
  - destruct n as [|n].
    + destruct m as [|m].
      * by exists "", (String c s).
      * destruct (IH 0%nat m) as (before & after & Heq & Hb & Hm); [lia|].
        destruct before; [|done]. rewrite str_app_nil in Heq.
        exists "", after. simpl. rewrite str_app_nil, str_app_cons.
        split_and!; [by rewrite <- Heq|done|by rewrite Hm].
    + destruct (IH n m) as (before & after & Heq & Hb & Hm); [lia|].
      exists (String c before), after. simpl. rewrite str_app_cons.
      split_and!; [by rewrite <- Heq|by rewrite Hb|done].
Qed.

Lemma slice_spec (s : string) (a b : Z) :
  0 ≤ a → a ≤ b → b ≤ len s → is_slice s a b (slice s a b).
Proof.
  intros Ha Hab Hb. unfold slice, clip.
  rewrite (proj2 (Z.ltb_ge a 0)) by lia. rewrite (proj2 (Z.ltb_ge b 0)) by lia.
  rewrite !Z.min_l by lia.
  destruct (substring_split s (Z.to_nat a) (Z.to_nat (b - a)))
    as (before & after & Heq & Hlb & Hlw).
  { unfold len in Hb. lia. }
  exists before, after. unfold len. rewrite Hlb, Hlw. split_and!; [done|lia|lia].
Qed.

Lemma slice_to_spec (s : string) :
  is_slice s 0 (Z.min 4000 (len s)) (slice_to s 4000).
Proof.
  pose proof (len_nonneg s). unfold slice_to.
  destruct (Z.le_gt_cases 4000 (len s)).
  - rewrite Z.min_l by lia. by apply slice_spec.
  - rewrite Z.min_r by lia.
    replace (slice s 0 4000) with (slice s 0 (len s)); [apply slice_spec; lia|].
    unfold slice, clip. simpl. rewrite (proj2 (Z.ltb_ge (len s) 0)) by lia.
    do 2 f_equal. lia.
Qed.

Lemma len_lower (s : string) : len (lower s) = len s.
Proof. unfold len. by rewrite length_lower. Qed.

Lemma is_slice_at_zero (s : string) (b : Z) (window : string) :
  is_slice s 0 b window → ∃ after, s = window +:+ after.
Proof.
  intros (before & after & -> & H0 & _). apply len_zero in H0 as ->.
  by exists after.
Qed.

End SliceFacts.

(** ** The context window *)

Lemma smart_clean_html_head (soup : Context.cleaned) (target_keyword : option string) :
  Context.smart_clean_html soup target_keyword
  = (PyStr.slice_to (Context.body_text soup) 4000, Context.text_structure soup) →
  Design.returns_head soup target_keyword.
Proof.
  intros H. exists (PyStr.slice_to (Context.body_text soup) 4000).
  split; [apply slice_to_spec|done].
Qed.

Example smart_clean_html_at_start :
  Context.smart_clean_html (Context.Cleaned "Price: 9.99 GBP" "Price: 9.99 GBP")
    (Some "PRICE")
  = ("...Price: 9.99 GBP...", "Price: 9.99 GBP").
Proof. vm_compute. reflexivity. Qed.

(** ** The context window on text that [str.lower] lengthens *)

Section UnicodeFacts.
Import Unicode.



Lemma text_lower_app (a b : text) : lower (a ++ b) = lower a ++ lower b.
Proof.
  induction a as [|c a IH]; [done|]. simpl. by rewrite IH, app_assoc.
Qed.

Lemma of_str_app (a b : string) : of_str (a +:+ b) = of_str a ++ of_str b.
Proof.
  induction a as [|c a IH]; [done|]. rewrite str_app_cons. simpl. by rewrite IH.
Qed.

Lemma of_str_inj (a b : string) : of_str a = of_str b → a = b.
Proof.
  revert b. induction a as [|c a IH]; intros [|d b]; simpl; try done.
  intros [= -> H]. by rewrite (IH b).
Qed.











(** A slice whose first bound is past the second is empty. *)
Lemma text_slice_crossed (s : text) (a b : Z) :
  0 ≤ b → b ≤ a → slice s a b = [].
Proof.
  intros Hb Hba. unfold slice, PyStr.clip.
  destruct (a <? 0) eqn:Ea; [lia|]. destruct (b <? 0) eqn:Eb; [lia|].
  replace (Z.to_nat (Z.min b (len s) - Z.min a (len s))) with 0%nat by lia.
  done.
Qed.

End UnicodeFacts.

Section DotlessFacts.
Import Unicode.







(** With U+0130 the lowered text is longer by one code point for each. *)
Lemma lower_length_le (s : text) : (length s ≤ length (lower s))%nat.
Proof.
  induction s as [|c s IH]; [done|]. simpl. rewrite length_app.
  destruct c; simpl; lia.
Qed.









End DotlessFacts.

Example dotted_page_lowered :
  Unicode.len (Unicode.body_text Unicode.dotted_page) = 631
  ∧ Unicode.len (Unicode.lower (Unicode.body_text Unicode.dotted_page)) = 1231.
Proof. vm_compute. done. Qed.

(** C7. The reducer looks the keyword up in [body_text.lower()] and cuts
    the window out of [body_text] at the index it finds there. When the
    body holds U+0130 before the match the two texts do not have the same
    indices, and the window is not the one around the match. In the body
    [<body>] + 600 times U+0130 + [<p>price 51.77</p></body>], of 631 code
    points, the keyword [price] matches at index 609 and nowhere else, so
    the window to return is the text from index 109 to the end between two
    ellipses; the search gives index 1209, the bounds are 709 and 631, and
    the reducer returns the two ellipses with nothing between them. *)
Theorem smart_clean_html_misses_match :
  let body := Unicode.body_text Unicode.dotted_page in
  let keyword := Unicode.of_str "price" in
  Unicode.matches_at body keyword 609
  ∧ (∀ i, Unicode.matches_at body keyword i → i = 609)
  ∧ Unicode.window_at body 609
    = Unicode.of_str "..." ++ replicate 497 Unicode.capital_I_dot
      ++ Unicode.of_str "<p>price 51.77</p></body>..."
  ∧ Unicode.find (Unicode.lower body) (Unicode.lower keyword) = 1209
  ∧ Unicode.smart_clean_html Unicode.dotted_page (Some keyword)
    = (Unicode.of_str "......", Unicode.text_structure Unicode.dotted_page).
Proof.
  intros body keyword. split_and!.
  - split_and!; [done|done|]. vm_compute. reflexivity.
  - intros i (Hlo & Hhi & Heq).
    assert (forallb
              (λ n, (n =? 609)%nat
                    || negb (bool_decide
                               (Unicode.lower
                                  (Unicode.slice body (Z.of_nat n)
                                     (Z.of_nat n + Unicode.len keyword))
                                = Unicode.lower keyword)))
              (seq 0 627) = true) as Hall by (vm_compute; reflexivity).
    rewrite forallb_forall in Hall.
    assert (Unicode.len body = 631) as Hlen by (vm_compute; reflexivity).
    assert (Unicode.len keyword = 5) as Hk by (vm_compute; reflexivity).
    specialize (Hall (Z.to_nat i)). rewrite Z2Nat.id in Hall by done.
    rewrite bool_decide_eq_true_2 in Hall by done.
    rewrite orb_false_r in Hall.
    assert ((Z.to_nat i =? 609)%nat = true) as Hi.
    { apply Hall, in_seq. lia. }
    apply Nat.eqb_eq in Hi. lia.
  - vm_compute. reflexivity.
  - vm_compute. reflexivity.
  - vm_compute. reflexivity.
Qed.

(** ** The two embeddings of lines 73-85 agree on U+0000 .. U+00FF *)

Section Latin1Facts.
Import Unicode.

Lemma lower_of_str (s : string) : lower (of_str s) = of_str (PyStr.lower s).
Proof. induction s as [|c s IH]; simpl; [done|]. by rewrite IH. Qed.

Lemma len_of_str (s : string) : len (of_str s) = PyStr.len s.
Proof.
  unfold len, PyStr.len. f_equal.
  induction s as [|c s IH]; simpl; [done|]. by rewrite IH.
Qed.

Lemma startswith_of_str (p s : string) :
  startswith (of_str p) (of_str s) = PyStr.startswith p s.
Proof.
  revert s. induction p as [|a p IH]; intros [|b s]; simpl; try done.
  rewrite IH. destruct (Ascii.eqb_spec a b) as [->|Hne].
  - by rewrite bool_decide_eq_true_2.
  - rewrite bool_decide_eq_false_2; [done|]. by intros [= ?].
Qed.

Lemma find_from_of_str (i : Z) (s sub : string) :
  find_from i (of_str s) (of_str sub) = PyStr.find_from i s sub.
Proof.
  revert i. induction s as [|c s IH]; intros i.
  - simpl. change [] with (of_str ""). by rewrite startswith_of_str.
  - simpl. change (Latin1 c :: of_str s) with (of_str (String c s)).
    rewrite startswith_of_str. by rewrite IH.
Qed.

Lemma substring_of_str (n m : nat) (s : string) :
  of_str (String.substring n m s) = take m (drop n (of_str s)).
Proof.
  revert n m. induction s as [|c s IH]; intros [|n] [|m]; simpl; try done.
  by rewrite (IH 0%nat m), drop_0.
Qed.

Lemma slice_of_str (s : string) (a b : Z) :
  slice (of_str s) a b = of_str (PyStr.slice s a b).
Proof.
  unfold slice, PyStr.slice. by rewrite len_of_str, substring_of_str.
Qed.

(** On a body and a keyword of U+0000 .. U+00FF the reducer of this
    section and [Context.smart_clean_html] return the same texts. *)
Lemma smart_clean_html_of_str (soup : Context.cleaned) (target : option string) :
  smart_clean_html
    (Cleaned (of_str (Context.body_text soup))
       (of_str (Context.text_structure soup)))
    (of_str <$> target)
  = (of_str (Context.smart_clean_html soup target).1,
     of_str (Context.smart_clean_html soup target).2).
Proof.
  unfold smart_clean_html, Context.smart_clean_html, slice_to, PyStr.slice_to.
  cbn [body_text text_structure].
  destruct target as [[|c keyword]|]; cbn [fmap option_fmap option_map of_str truthy PyStr.truthy];
    [by rewrite slice_of_str| |by rewrite slice_of_str].
  change (Latin1 c :: of_str keyword) with (of_str (String c keyword)).
  rewrite !lower_of_str. unfold find, PyStr.find. rewrite find_from_of_str.
  rewrite len_of_str.
  destruct (negb _); cbn [fst snd]; [|by rewrite slice_of_str].
  by rewrite !of_str_app, slice_of_str.
Qed.

End Latin1Facts.

(** ** The subject extractor *)

Example extract_subject_doc :
  Subject.extract_subject "Extract the movie director name" = "director".
Proof. vm_compute. reflexivity. Qed.

Example extract_subject_price :
  Subject.extract_subject "Extract the price" = "price".
Proof. vm_compute. reflexivity. Qed.

Example extract_subject_all_stop :
  Subject.extract_subject "Get the Name" = "name".
Proof. vm_compute. reflexivity. Qed.

Example extract_subject_empty :
  Subject.extract_subject "" = "data".
Proof. vm_compute. reflexivity. Qed.


(** ** The JSON-LD extractor *)

Section JsonLdFacts.
Import Py JsonLd Design Forms.

Lemma assigns_only_ret {A} (a : A) : assigns_only (mret a).
Proof. by exists [], (Ok a). Qed.

Lemma assigns_only_eval {A} (r : result A) : assigns_only (eval r).
Proof. by exists [], r. Qed.

Lemma assigns_only_setitem (key : string) (v : json) :
  assigns_only (setitem key v).
Proof. by exists [(key, v)], (Ok ()). Qed.

Lemma assign_all_app (ws1 ws2 : list (string * json)) (d : gmap string json) :
  assign_all (ws1 ++ ws2) d = assign_all ws2 (assign_all ws1 d).
Proof. unfold assign_all. by rewrite foldl_app. Qed.

Lemma assigns_only_bind {A B} (m : M A) (k : A → M B) :
  assigns_only m → (∀ a, assigns_only (k a)) → assigns_only (m ≫= k).
Proof.
  intros (ws & r & Hm) Hk. destruct r as [a|e].
  - destruct (Hk a) as (ws' & r' & Hka). exists (ws ++ ws'), r'.
    intros d. unfold mbind, M_bind. by rewrite Hm, Hka, assign_all_app.
  - exists ws, (Raise e). intros d. unfold mbind, M_bind. by rewrite Hm.
Qed.

Lemma try_body_assigns_only (loaded : result json) :
  assigns_only (try_body loaded).
Proof.
  unfold try_body.
  repeat first
    [ apply assigns_only_bind; [|intros ?]
    | apply assigns_only_eval
    | apply assigns_only_ret
    | apply assigns_only_setitem
    | match goal with |- assigns_only (if ?b then _ else _) => destruct b end ].
Qed.

(** An assignment sequence decides a field by its last assignment to it,
    and leaves the field alone when it has none. *)
Lemma assign_all_lookup (ws : list (string * json)) (d : gmap string json)
    (field : string) :
  assign_all ws d !! field
  = match assign_all ws ∅ !! field with
    | Some v => Some v
    | None => d !! field
    end.
Proof.
  induction ws as [|[k v] ws IH] using rev_ind.
  - simpl. by rewrite lookup_empty.
  - rewrite !assign_all_app. simpl.
    destruct (decide (k = field)) as [->|Hne].
    + by rewrite !lookup_insert_eq.
    + by rewrite !lookup_insert_ne.
Qed.

Lemma loop_step_lookup (data_found : gmap string json) (loaded : result json)
    (field : string) :
  loop_step data_found loaded !! field
  = match written loaded field with
    | Some v => Some v
    | None => data_found !! field
    end.
Proof.
  unfold written, loop_step.
  destruct (try_body_assigns_only loaded) as (ws & r & H).
  rewrite !H. simpl. apply assign_all_lookup.
Qed.

Lemma parse_json_ld_snoc (scripts : list (result json)) (loaded : result json) :
  parse_json_ld (scripts ++ [loaded]) = loop_step (parse_json_ld scripts) loaded.
Proof. unfold parse_json_ld. by rewrite foldl_app. Qed.

Lemma foldl_loop_step_silent (later : list (result json))
    (d : gmap string json) (field : string) :
  Forall (λ b, written b field = None) later →
  foldl loop_step d later !! field = d !! field.
Proof.
  revert d. induction later as [|b later IH]; intros d Hall; [done|].
  apply Forall_cons in Hall as [Hb Hall]. simpl.
  rewrite IH by done. by rewrite loop_step_lookup, Hb.
Qed.

Local Ltac run_body :=
  unfold loop_step, try_body, eval, setitem, mbind, M_bind, mret, M_ret;
  simpl.

Local Ltac split_on key :=
  match goal with
  | |- context [assoc ?items key] => destruct (assoc items key) eqn:?; simpl
  end.

Lemma written_name (data : json) (items : list (string * json)) :
  heads data items → written (Ok data) "name" = assoc items "name".
Proof.
  unfold written. intros [->|[rest ->]]; run_body.
  all: split_on "name"; split_on "description"; split_on "offers".
  all: repeat (case_match; simplify_eq/=); by simplify_map_eq.
Qed.

Lemma written_description (data : json) (items : list (string * json)) :
  heads data items →
  written (Ok data) "description" = assoc items "description".
Proof.
  unfold written. intros [->|[rest ->]]; run_body.
  all: split_on "name"; split_on "description"; split_on "offers".
  all: repeat (case_match; simplify_eq/=); by simplify_map_eq.
Qed.

Lemma written_price (data offers : json) (items offer_items : list (string * json)) :
  heads data items →
  assoc items "offers" = Some offers →
  heads offers offer_items →
  written (Ok data) "price"
  = Some (JStr (shown offer_items "priceCurrency" +:+ " "
                +:+ shown offer_items "price")).
Proof.
  unfold written, shown.
  intros [->|[rest ->]] Hoffers [->|[rest' ->]]; run_body.
  all: rewrite Hoffers; simpl.
  all: split_on "name"; split_on "description".
  all: split_on "priceCurrency"; split_on "price".
  all: by simplify_map_eq.
Qed.

End JsonLdFacts.

Example parse_json_ld_scenario1 :
  JsonLd.parse_json_ld
    [Py.Ok (Py.JDict [("name", Py.JStr "Book");
                      ("offers", Py.JDict [("price", Py.JStr "24.99");
                                           ("priceCurrency", Py.JStr "GBP")])])]
  !! "price" = Some (Py.JStr "GBP 24.99").
Proof. vm_compute. reflexivity. Qed.

Example repr_nested :
  Py.repr (Py.JDict [("a", Py.JList [Py.JInt 1; Py.JStr "it's"; Py.JNull]);
                     ("b", Py.JBool true); ("c", Py.JInt (-7))])
  = String.concat ""
      ["{'a': [1, "; String Py.quote2 "it's"; String Py.quote2 ", None], ";
       "'b': True, 'c': -7}"].
Proof. vm_compute. reflexivity. Qed.

(** Two blocks that both give a name: the second one decides. *)
Example parse_json_ld_two_names :
  JsonLd.parse_json_ld
    [Py.Ok (Py.JDict [("name", Py.JStr "A")]);
     Py.Ok (Py.JDict [("name", Py.JStr "B")])] !! "name"
  = Some (Py.JStr "B").
Proof. vm_compute. reflexivity. Qed.

(** C2, counterexample. With the blocks [{"name": "A"}] and [{"name": "B"}]
    the first block writes the name "A", yet the extractor returns "B":
    first-wins does not hold. *)
Lemma first_wins_fails : ¬ Design.first_wins.
Proof.
  intros H.
  specialize (H [] (Py.Ok (Py.JDict [("name", Py.JStr "A")]))
                [Py.Ok (Py.JDict [("name", Py.JStr "B")])]
                "name" (Py.JStr "A")).
  assert (Some (Py.JStr "B") = Some (Py.JStr "A")) as Heq; [|discriminate Heq].
  rewrite <- parse_json_ld_two_names. apply H.
  - apply list_elem_of_here.
  - constructor.
  - vm_compute. reflexivity.
Qed.

(** C2 (amended). For every sequence of structured-data blocks and every
    field, [name], [description] and [price] among them, the extractor
    returns the value written by the last block that writes the field: a
    later block that writes a field replaces what an earlier block had set
    (last-wins). *)
Theorem parse_json_ld_last_wins
    (earlier : list (Py.result Py.json)) (block : Py.result Py.json)
    (later : list (Py.result Py.json)) (field : string) (v : Py.json) :
  Design.written block field = Some v →
  Forall (λ b, Design.written b field = None) later →
  JsonLd.parse_json_ld (earlier ++ block :: later) !! field = Some v.
Proof.
  intros Hblock Hlater. unfold JsonLd.parse_json_ld.
  rewrite foldl_app. simpl.
  rewrite foldl_loop_step_silent by done.
  by rewrite loop_step_lookup, Hblock.
Qed.

Lemma parse_json_ld_last_wins_witness :
  JsonLd.parse_json_ld
    ([Py.Ok (Py.JDict [("name", Py.JStr "A"); ("description", Py.JStr "first")])]
     ++ Py.Ok (Py.JDict [("name", Py.JStr "B")])
     :: [Py.Ok (Py.JDict [("description", Py.JStr "last")])]) !! "name"
  = Some (Py.JStr "B").
Proof.
  apply parse_json_ld_last_wins.
  - vm_compute. reflexivity.
  - repeat constructor.
Defined.

(** C4. For a block that is an object, or an array whose first element is
    an object, with an [offers] field that is an object or an array whose
    first element is an object, the price field the extractor holds after
    the block is the offer's [priceCurrency], one space, and the offer's
    [price], each as [str] shows it, so exactly the two texts when they
    are strings; a sub-field the offer does not have shows as the empty
    string and raises nothing. *)
Theorem parse_json_ld_price
    (earlier : list (Py.result Py.json)) (data offers : Py.json)
    (items offer_items : list (string * Py.json)) :
  Design.heads data items →
  Py.assoc items "offers" = Some offers →
  Design.heads offers offer_items →
  let price := JsonLd.parse_json_ld (earlier ++ [Py.Ok data]) !! "price" in
  price = Some (Py.JStr (Design.shown offer_items "priceCurrency" +:+ " "
                         +:+ Design.shown offer_items "price"))
  ∧ (∀ c p,
        Py.assoc offer_items "priceCurrency" = Some (Py.JStr c) →
        Py.assoc offer_items "price" = Some (Py.JStr p) →
        price = Some (Py.JStr (c +:+ " " +:+ p)))
  ∧ (∀ c,
        Py.assoc offer_items "priceCurrency" = Some (Py.JStr c) →
        Py.assoc offer_items "price" = None →
        price = Some (Py.JStr (c +:+ " ")))
  ∧ (∀ p,
        Py.assoc offer_items "priceCurrency" = None →
        Py.assoc offer_items "price" = Some (Py.JStr p) →
        price = Some (Py.JStr (" " +:+ p)))
  ∧ (Py.assoc offer_items "priceCurrency" = None →
     Py.assoc offer_items "price" = None →
     price = Some (Py.JStr " ")).
Proof.
  intros Hdata Hoffers Hoffer price.
  assert (price = Some (Py.JStr (Design.shown offer_items "priceCurrency" +:+ " "
                                 +:+ Design.shown offer_items "price"))) as Hprice.
  { unfold price. rewrite parse_json_ld_snoc, loop_step_lookup.
    by rewrite (written_price data offers items offer_items). }
  split_and!; [done|..]; unfold Design.shown in Hprice.
  - intros c p Hc Hp. by rewrite Hc, Hp in Hprice.
  - intros c Hc Hp. rewrite Hc, Hp in Hprice. simpl in Hprice.
    by rewrite Hprice.
  - intros p Hc Hp. by rewrite Hc, Hp in Hprice.
  - intros Hc Hp. by rewrite Hc, Hp in Hprice.
Qed.

Lemma parse_json_ld_price_witness :
  JsonLd.parse_json_ld
    ([] ++ [Py.Ok (Py.JDict
                     [("name", Py.JStr "Book");
                      ("offers", Py.JList
                                   [Py.JDict [("price", Py.JStr "24.99");
                                              ("priceCurrency", Py.JStr "GBP")]])])])
  !! "price" = Some (Py.JStr "GBP 24.99").
Proof.
  set (offer_items := [("price", Py.JStr "24.99"); ("priceCurrency", Py.JStr "GBP")]).
  set (offers := Py.JList [Py.JDict offer_items]).
  set (items := [("name", Py.JStr "Book"); ("offers", offers)]).
  assert (Design.heads (Py.JDict items) items) as Hdata by (by left).
  assert (Py.assoc items "offers" = Some offers) as Hoffers by reflexivity.
  assert (Design.heads offers offer_items) as Hoffer by (right; by exists []).
  destruct (parse_json_ld_price [] _ _ _ _ Hdata Hoffers Hoffer) as (_ & Hexact & _).
  apply (Hexact "GBP" "24.99"); reflexivity.
Defined.

(** A price given as a number shows as Python prints the number. *)
Example parse_json_ld_number_price :
  JsonLd.parse_json_ld
    [Py.Ok (Py.JDict
              [("offers", Py.JDict [("priceCurrency", Py.JStr "USD");
                                    ("price", Py.JFloat "19.5")])])]
  !! "price" = Some (Py.JStr "USD 19.5").
Proof. vm_compute. reflexivity. Qed.

(** C10. A block that is valid JSON and has [name], [description] and an
    empty [offers] array raises [IndexError] at [data['offers'][0]], after
    its name and description are stored: the extractor returns them, so
    the block is not skipped as a whole and the record does not stay as it
    was before the block. *)
Theorem parse_json_ld_partial_block
    (earlier : list (Py.result Py.json)) (items : list (string * Py.json))
    (n d : Py.json) :
  Py.assoc items "name" = Some n →
  Py.assoc items "description" = Some d →
  Py.assoc items "offers" = Some (Py.JList []) →
  let before := JsonLd.parse_json_ld earlier in
  let after := JsonLd.parse_json_ld (earlier ++ [Py.Ok (Py.JDict items)]) in
  (JsonLd.try_body (Py.Ok (Py.JDict items)) before).2 = Py.Raise Py.IndexError
  ∧ after = <["description" := d]> (<["name" := n]> before)
  ∧ after !! "name" = Some n
  ∧ after !! "description" = Some d
  ∧ after !! "price" = before !! "price"
  ∧ (before !! "name" ≠ Some n → after ≠ before).
Proof.
  intros Hn Hd Ho before after.
  assert (JsonLd.try_body (Py.Ok (Py.JDict items)) before
          = (<["description" := d]> (<["name" := n]> before),
             Py.Raise Py.IndexError)) as Hrun.
  { unfold JsonLd.try_body, JsonLd.eval, JsonLd.setitem, mbind, JsonLd.M_bind,
      mret, JsonLd.M_ret. simpl. rewrite Hn, Hd, Ho. reflexivity. }
  assert (after = <["description" := d]> (<["name" := n]> before)) as Hafter.
  { unfold after. rewrite parse_json_ld_snoc. unfold JsonLd.loop_step.
    fold before. by rewrite Hrun. }
  clearbody before after. split_and!.
  - by rewrite Hrun.
  - done.
  - rewrite Hafter. by simplify_map_eq.
  - rewrite Hafter. by simplify_map_eq.
  - rewrite Hafter. by simplify_map_eq.
  - intros Hne Heq. apply Hne. rewrite <- Heq, Hafter. by simplify_map_eq.
Qed.

Lemma parse_json_ld_partial_block_witness :
  JsonLd.parse_json_ld
    ([] ++ [Py.Ok (Py.JDict [("name", Py.JStr "Lamp");
                             ("description", Py.JStr "A desk lamp");
                             ("offers", Py.JList [])])])
  = <["description" := Py.JStr "A desk lamp"]> (<["name" := Py.JStr "Lamp"]> ∅).
Proof.
  apply (parse_json_ld_partial_block []
           [("name", Py.JStr "Lamp"); ("description", Py.JStr "A desk lamp");
            ("offers", Py.JList [])]
           (Py.JStr "Lamp") (Py.JStr "A desk lamp")); reflexivity.
Defined.

(** ** The fetcher *)

Section FetchFacts.
Import Py Trace Fetch Design Forms.

Lemma contains_spec (sub s : string) :
  PyStr.contains sub s = true ↔ ∃ i, occurs_at s sub i.
Proof.
  unfold PyStr.contains, PyStr.find.
  destruct (find_from_spec s sub 0) as [[-> Hno]|(k & -> & Hocc & _)]; [lia| |].
  - simpl. split; [done|]. intros [i Hi]. by destruct (Hno i).
  - apply occurs_at_nonneg in Hocc as Hk.
    destruct (0 + k =? -1) eqn:E; [lia|]. simpl. split; [|done].
    intros _. by exists k.
Qed.

Lemma is_hard_target_spec (url : string) :
  is_hard_target url = true
  ↔ ∃ x i, x ∈ ANTI_BOT_SITES ∧ occurs_at url x i.
Proof.
  unfold is_hard_target. rewrite existsb_exists. split.
  - intros (x & Hin & Hc). apply contains_spec in Hc as [i Hi].
    exists x, i. split; [by apply list_elem_of_In|done].
  - intros (x & i & Hin & Hi). exists x.
    split; [by apply list_elem_of_In|]. apply contains_spec. by exists i.
Qed.

Local Ltac run_fetch :=
  unfold fetch_html, try_finally, try_except, call, emit, leave,
    mbind, prog_bind, mret, prog_ret;
  simpl.

(** The direct fetch: one request, and [None] instead of an exception. *)
Lemma fetch_html_direct (b : backend) (url : string) (log : list event) :
  is_hard_target url && SELENIUM_AVAILABLE b = false →
  fetch_html b url log
  = (log ++ [RequestsGet url user_agent 10],
     inl match requests_get b url with
         | Ok text => Some text
         | Raise _ => None
         end).
Proof.
  intros Hdirect. run_fetch. rewrite Hdirect.
  by destruct (requests_get b url).
Qed.

(** The stealth fetch, once the browser is up: the events of the
    [try] block, then [driver.quit()]. *)
Lemma fetch_html_stealth (b : backend) (url : string) (log : list event) :
  is_hard_target url && SELENIUM_AVAILABLE b = true →
  chrome b = Ok () →
  let during := match driver_get b url with
                | Ok _ => [Sleep 5; PageSource]
                | Raise _ => []
                end in
  ∃ result,
    fetch_html b url log
    = (log ++ [Ui StealthToast; ChromeLaunch ["--headless"; "--disable-gpu"]]
           ++ DriverGet url :: during ++ [DriverQuit], result)
    ∧ (∀ e, driver_quit b = Raise e → result = inr e)
    ∧ (driver_quit b = Ok () →
       result = match driver_get b url with
                | Raise e => inr e
                | Ok _ => match page_source b with
                          | Raise e => inr e
                          | Ok source => inl (Some source)
                          end
                end).
Proof.
  intros Hstealth Hchrome. run_fetch. rewrite Hstealth, Hchrome. simpl.
  destruct (driver_get b url) as [[]|e1]; simpl;
    [destruct (page_source b) as [source|e2]; simpl|];
    destruct (driver_quit b) as [[]|e3]; simpl;
    eexists; (split; [by rewrite <- !app_assoc|]);
    split; intros; simplify_eq; done.
Qed.

Lemma fetch_html_launch_fails (b : backend) (url : string) (log : list event)
    (e : exn) :
  is_hard_target url && SELENIUM_AVAILABLE b = true →
  chrome b = Raise e →
  fetch_html b url log
  = (log ++ [Ui StealthToast; ChromeLaunch ["--headless"; "--disable-gpu"]],
     inr e).
Proof.
  intros Hstealth Hchrome. run_fetch. rewrite Hstealth, Hchrome. simpl.
  by rewrite <- !app_assoc.
Qed.

End FetchFacts.

Lemma used_stealth_fetch_html (b : Fetch.backend) (url : string) :
  Design.used_stealth (Fetch.fetch_html b url []).1
  = Fetch.is_hard_target url && Fetch.SELENIUM_AVAILABLE b.
Proof.
  destruct (Fetch.is_hard_target url && Fetch.SELENIUM_AVAILABLE b) eqn:Hcase.
  - destruct (Fetch.chrome b) as [[]|e] eqn:Hchrome.
    + destruct (fetch_html_stealth b url [] Hcase Hchrome) as (r & -> & _).
      reflexivity.
    + by rewrite (fetch_html_launch_fails b url [] e).
  - by rewrite fetch_html_direct.
Qed.

Example url_host_example :
  Design.url_host "https://www.nike.com/t/air-max?x=1" = "www.nike.com".
Proof. vm_compute. reflexivity. Qed.

(** C6, counterexample. With Selenium installed, the URL
    [https://example.com/nike.com] is fetched with the stealth browser,
    although its host, [example.com], contains none of the listed
    domains. *)
Lemma host_rule_fails : ¬ Design.host_rule.
Proof.
  intros H.
  specialize (H Samples.stealth_web "https://example.com/nike.com").
  vm_compute in H. discriminate H.
Qed.

(** C6 (amended). The fetcher uses the stealth browser exactly when one of
    the listed domains occurs somewhere in the URL string, in its host or
    anywhere else, and Selenium is available. In every other case,
    a listed domain without Selenium included, it makes one direct HTTP
    request with the desktop user agent and a timeout of 10 seconds, and
    returns the page text, or [None] when the request raises. *)
Theorem fetch_html_strategy (b : Fetch.backend) (url : string) :
  (Fetch.is_hard_target url = true
   ↔ ∃ x i, x ∈ Fetch.ANTI_BOT_SITES ∧ Design.occurs_at url x i)
  ∧ Design.used_stealth (Fetch.fetch_html b url []).1
    = Fetch.is_hard_target url && Fetch.SELENIUM_AVAILABLE b
  ∧ (Fetch.is_hard_target url && Fetch.SELENIUM_AVAILABLE b = false →
     Fetch.fetch_html b url []
     = ([Trace.RequestsGet url
           "Mozilla/5.0 (Macintosh; Intel Mac OS X 10_15_7)" 10],
        inl match Fetch.requests_get b url with
            | Py.Ok text => Some text
            | Py.Raise _ => None
            end)).
Proof.
  split_and!.
  - apply is_hard_target_spec.
  - apply used_stealth_fetch_html.
  - intros Hdirect. by rewrite fetch_html_direct.
Qed.

(** Scenario 5: a listed domain, and Selenium is not installed. *)
Lemma fetch_html_strategy_witness :
  Fetch.fetch_html (Samples.plain_web Samples.page) "https://www.nike.com/t/air" []
  = ([Trace.RequestsGet "https://www.nike.com/t/air"
        "Mozilla/5.0 (Macintosh; Intel Mac OS X 10_15_7)" 10],
     inl (Some Samples.page)).
Proof.
  destruct (fetch_html_strategy (Samples.plain_web Samples.page)
              "https://www.nike.com/t/air") as (_ & _ & Hdirect).
  apply Hdirect. reflexivity.
Defined.

(** C9. In every stealth fetch whose browser was launched, [driver.quit()]
    is called exactly once and is the last thing the fetch does before it
    returns or raises, after the navigation and the page capture, whether
    they succeed or fail. In particular, when the navigation raises, the
    fetch raises that exception only after the browser has quit. *)
Theorem fetch_html_quits (b : Fetch.backend) (url : string) :
  Fetch.is_hard_target url && Fetch.SELENIUM_AVAILABLE b = true →
  Fetch.chrome b = Py.Ok () →
  ∃ before,
    (Fetch.fetch_html b url []).1 = before ++ [Trace.DriverQuit]
    ∧ (Trace.DriverQuit ∉ before)
    ∧ Trace.DriverGet url ∈ before
    ∧ (∀ e, Fetch.driver_get b url = Py.Raise e →
            Fetch.driver_quit b = Py.Ok () →
            (Fetch.fetch_html b url []).2 = inr e
            ∧ Trace.PageSource ∉ before)
    ∧ (∀ e, Fetch.driver_get b url = Py.Ok () →
            Fetch.page_source b = Py.Raise e →
            Fetch.driver_quit b = Py.Ok () →
            (Fetch.fetch_html b url []).2 = inr e).
Proof.
  intros Hstealth Hchrome.
  destruct (fetch_html_stealth b url [] Hstealth Hchrome)
    as (result & Hrun & Hquit_raises & Hquit_ok).
  rewrite Hrun. simpl.
  exists ([Trace.Ui Trace.StealthToast;
           Trace.ChromeLaunch ["--headless"; "--disable-gpu"];
           Trace.DriverGet url]
          ++ match Fetch.driver_get b url with
             | Py.Ok _ => [Trace.Sleep 5; Trace.PageSource]
             | Py.Raise _ => []
             end).
  split; [by rewrite <- app_assoc|]. split_and!.
  - destruct (Fetch.driver_get b url); simpl;
      rewrite !not_elem_of_cons; split_and!; try done; apply not_elem_of_nil.
  - simpl. do 2 apply list_elem_of_further. apply list_elem_of_here.
  - intros e Hget Hq. rewrite (Hquit_ok Hq), Hget. split; [done|]. simpl.
    rewrite !not_elem_of_cons; split_and!; try done; apply not_elem_of_nil.
  - intros e Hget Hsrc Hq. by rewrite (Hquit_ok Hq), Hget, Hsrc.
Qed.

(** The browser starts and the navigation fails: the fetch quits the
    browser and then raises. *)
Lemma fetch_html_quits_witness :
  ∃ before,
    (Fetch.fetch_html Samples.stuck_browser "https://www.nike.com/t/air" []).1
    = before ++ [Trace.DriverQuit]
    ∧ (Trace.DriverQuit ∉ before)
    ∧ (Fetch.fetch_html Samples.stuck_browser "https://www.nike.com/t/air" []).2
      = inr Py.WebDriverException.
Proof.
  destruct (fetch_html_quits Samples.stuck_browser "https://www.nike.com/t/air")
    as (before & Hlog & Hnot & _ & Hnav & _); [reflexivity..|].
  exists before. split_and!; [done..|].
  by destruct (Hnav Py.WebDriverException).
Defined.

(** ** Runs of the whole script *)

(** Scenario 1: the price is in the structured data. *)
Example scenario_structured_data :
  (Agent.run (Samples.world_of [Py.Ok Samples.book] Samples.no_model)
     "https://books.example/1" "Extract the price" true).2
  = Agent.Success Agent.StructuredData "GBP 24.99".
Proof. vm_compute. reflexivity. Qed.

(** Scenario 2: no structured data; the proposed selector finds the price. *)
Example scenario_selector :
  (Agent.run (Samples.world_of [] (Samples.model "p.price" "unused"))
     "https://books.example/1" "Extract the price" true).2
  = Agent.Success Agent.Selector "51.77".
Proof. vm_compute. reflexivity. Qed.

(** Scenario 3: the proposed selector matches nothing; the text fallback
    answers. *)
Example scenario_text_fallback :
  (Agent.run (Samples.world_of [] (Samples.model "div.cost" " 51.77 "))
     "https://books.example/1" "Extract the price" true).2
  = Agent.Success Agent.TextFallback "51.77".
Proof. vm_compute. reflexivity. Qed.

(** Scenario 4: the model never answers. *)
Example scenario_no_model :
  (Agent.run (Samples.world_of [] Samples.no_model)
     "https://books.example/1" "Extract the price" true).2
  = Agent.Failed.
Proof. vm_compute. reflexivity. Qed.

Example scenario_selector_path :
  Design.path
    (Agent.run (Samples.world_of [] (Samples.model "p.price" "unused"))
       "https://books.example/1" "Extract the price" true).1
  = [Design.Init; Design.CacheCheck; Design.StructuredDataCheck;
     Design.SelectorHealing; Design.SuccessState].
Proof. vm_compute. reflexivity. Qed.

Section TraceFacts.
Import Py Trace.

Lemma appends_ret {X A} (a : A) : appends (X := X) (mret a).
Proof. intros log. unfold mret, prog_ret. simpl. by rewrite app_nil_r. Qed.

Lemma appends_emit {X} (e : event) : appends (X := X) (emit e).
Proof. by intros log. Qed.

Lemma appends_leave {X A} (x : X) : appends (A := A) (leave x).
Proof. intros log. unfold leave. simpl. by rewrite app_nil_r. Qed.

Lemma appends_bind {X A B} (m : prog X A) (k : A → prog X B) :
  appends m → (∀ a, appends (k a)) → appends (m ≫= k).
Proof.
  intros Hm Hk log. unfold mbind, prog_bind. rewrite (Hm log).
  destruct (m []) as [l0 [a|x]]; simpl; [|done].
  rewrite (Hk a (log ++ l0)), (Hk a l0). simpl. by rewrite app_assoc.
Qed.

Lemma appends_call {A} (r : result A) : appends (call r).
Proof. destruct r; [apply appends_ret|apply appends_leave]. Qed.

Lemma appends_try_finally {A} (body : prog exn A) (cleanup : prog exn unit) :
  appends body → appends cleanup → appends (try_finally body cleanup).
Proof.
  intros Hb Hc log. unfold try_finally. rewrite (Hb log).
  destruct (body []) as [l0 r]; simpl.
  rewrite (Hc (log ++ l0)), (Hc l0).
  destruct (cleanup []) as [l1 [[]|e]]; simpl; by rewrite app_assoc.
Qed.

Lemma appends_try_except {A} (body handler : prog exn A) :
  appends body → appends handler → appends (try_except body handler).
Proof.
  intros Hb Hh log. unfold try_except. rewrite (Hb log).
  destruct (body []) as [l0 [a|e]]; simpl; [done|].
  rewrite (Hh (log ++ l0)), (Hh l0). simpl. by rewrite app_assoc.
Qed.

Lemma appends_uncaught {A} (m : prog exn A) :
  appends m → appends (Agent.uncaught m).
Proof.
  intros Hm log. unfold Agent.uncaught. rewrite (Hm log).
  by destruct (m []) as [l0 [a|e]].
Qed.

End TraceFacts.

Ltac appends_steps :=
  repeat first
    [ apply appends_bind; [|intros ?]
    | apply appends_ret
    | apply appends_emit
    | apply appends_leave
    | apply appends_call
    | apply appends_try_finally
    | apply appends_try_except
    | apply appends_uncaught
    | match goal with
      | |- Trace.appends (if ?b then _ else _) => destruct b
      | |- Trace.appends (match ?x with _ => _ end) => destruct x
      | |- Trace.appends (let '(_, _) := ?x in _) => destruct x
      end ].

Section AgentFacts.
Import Py Trace Agent Design Ollama Forms.

Lemma appends_fetch_html (b : Fetch.backend) (url : string) :
  appends (Fetch.fetch_html b url).
Proof. unfold Fetch.fetch_html. appends_steps. Qed.

Lemma appends_ask_ollama {X} (post : endpoint) (prompt : string) (t : Z) :
  appends (X := X) (ask_ollama post prompt t).
Proof. unfold ask_ollama. appends_steps. Qed.

Lemma appends_try_cache (sim : bool) : appends (try_cache sim).
Proof. unfold try_cache. appends_steps. Qed.

Lemma appends_try_json_ld (json_data : gmap string json) (subject : string) :
  appends (try_json_ld json_data subject).
Proof. unfold try_json_ld, st_stop. appends_steps. Qed.

Lemma appends_strategy_a (w : world) (html focused intent : string) :
  appends (strategy_a w html focused intent).
Proof.
  unfold strategy_a, generate_selector, st_stop.
  appends_steps; apply appends_ask_ollama.
Qed.

Lemma appends_strategy_b (w : world) (text intent : string) :
  appends (strategy_b w text intent).
Proof.
  unfold strategy_b, direct_extraction.
  appends_steps; apply appends_ask_ollama.
Qed.

Lemma appends_cascade (w : world) (html intent : string) (sim : bool) :
  appends (cascade w html intent sim).
Proof.
  unfold cascade.
  appends_steps;
    first [ apply appends_try_cache | apply appends_try_json_ld
          | apply appends_strategy_a | apply appends_strategy_b ].
Qed.

Local Ltac run_prog :=
  unfold emit, leave, st_stop, mbind, prog_bind, mret, prog_ret; simpl.

Local Ltac flatten :=
  repeat (rewrite <- app_assoc; simpl); try done.

Lemma ask_ollama_run {X} (post : endpoint) (prompt : string) (t : Z) :
  ask_ollama (X := X) post prompt t []
  = (OllamaPost OLLAMA_MODEL prompt t 8192 30 :: noise post prompt t,
     inl (asked post prompt t)).
Proof.
  unfold asked, noise, ask_ollama. run_prog.
  destruct (post prompt t) as [status [text|e]|e]; simpl; try done.
  all: by destruct (status =? 200).
Qed.

Lemma noise_cases (post : endpoint) (prompt : string) (t : Z) :
  noise post prompt t = [] ∨ noise post prompt t = [Ui OllamaError].
Proof.
  unfold noise, ask_ollama. run_prog.
  destruct (post prompt t) as [status [text|e]|e]; simpl; auto.
  all: destruct (status =? 200); auto.
Qed.

Lemma strategy_a_run (w : world) (html intent : string) :
  strategy_a w html (focused_html w html intent) intent []
  = match select_one w html (candidate w html intent) with
    | Element text =>
        if 0 <? PyStr.len text
        then (selector_log w html intent
              ++ [Ui (HealedSelector text); Ui (SuccessMsg text); Ui Balloons],
              inr (Success Selector text))
        else (selector_log w html intent, inl ())
    | NoElement => (selector_log w html intent, inl ())
    | SelectRaised => (selector_log w html intent ++ [Ui SelectorFailed], inl ())
    end.
Proof.
  unfold strategy_a, generate_selector, selector_log, candidate.
  set (prompt := selector_prompt (focused_html w html intent) intent).
  unfold mbind at 1, prog_bind at 1. simpl.
  unfold mbind at 1, prog_bind at 1.
  rewrite (appends_ask_ollama (ollama w) prompt 10 [Ui Generating]).
  rewrite ask_ollama_run. simpl.
  run_prog.
  destruct (select_one w html (asked (ollama w) prompt 10)) as [| |text];
    [| |destruct (0 <? PyStr.len text)]; run_prog; flatten.
Qed.

Lemma strategy_b_run (w : world) (html intent : string) :
  strategy_b w (Context.smart_clean_html (clean w html)
                  (Some (Subject.extract_subject intent))).2 intent []
  = ((fallback_run w html intent).1, inl (fallback_run w html intent).2).
Proof.
  unfold strategy_b, direct_extraction, fallback_run, direct_answer, page_text.
  set (prompt := extraction_prompt _ intent).
  unfold mbind at 1, prog_bind at 1. simpl.
  unfold mbind at 1, prog_bind at 1.
  rewrite (appends_ask_ollama (ollama w) prompt 5 [Ui Fallback]).
  rewrite ask_ollama_run. simpl.
  run_prog.
  destruct (asked (ollama w) prompt 5) as [answer|];
    [destruct (PyStr.truthy answer)|]; run_prog; flatten.
Qed.

Lemma bind_run {X A B} (m : prog X A) (k : A → prog X B)
    (log l0 : list event) (a : A) :
  m log = (l0, inl a) → (m ≫= k) log = k a l0.
Proof. intros H. unfold mbind, prog_bind. by rewrite H. Qed.

Lemma bind_stop {X A B} (m : prog X A) (k : A → prog X B)
    (log l0 : list event) (x : X) :
  m log = (l0, inr x) → (m ≫= k) log = (l0, inr x).
Proof. intros H. unfold mbind, prog_bind. by rewrite H. Qed.

Lemma bind_emit {X B} (e : event) (k : unit → prog X B) (log : list event) :
  (emit e ≫= k) log = k () (log ++ [e]).
Proof. reflexivity. Qed.

Lemma try_cache_run (sim : bool) (log : list event) :
  try_cache sim log = (log ++ cache_log sim, inl ()).
Proof.
  unfold try_cache, cache_log. destruct sim; run_prog; flatten.
  by rewrite app_nil_r.
Qed.

Lemma try_json_ld_run (w : world) (html intent : string) (log : list event) :
  try_json_ld (JsonLd.parse_json_ld (ld_json w html))
    (Subject.extract_subject intent) log
  = if price_found w html intent then
      let value := str (JsonLd.parse_json_ld (ld_json w html) !!! "price") in
      (log ++ [Ui (FoundInMetadata value); Ui (Extracted value)],
       inr (Success StructuredData value))
    else (log, inl ()).
Proof.
  unfold try_json_ld, price_found.
  destruct (_ && _); run_prog; flatten.
Qed.

Lemma healing_form (w : world) (html intent : string) (log : list event) :
  let '(focused, text) :=
    Context.smart_clean_html (clean w html)
      (Some (Subject.extract_subject intent)) in
  let r := (strategy_a w html focused intent
              ≫= λ _, strategy_b w text intent)
             (log ++ [Ui Engaging; Ui (Focusing (Subject.extract_subject intent))]) in
  r.1 = log ++ (healing_run w html intent).1
  ∧ ended r.2 = (healing_run w html intent).2.
Proof.
  pose proof (strategy_a_run w html intent) as Ha.
  pose proof (strategy_b_run w html intent) as Hb.
  unfold focused_html in Ha.
  destruct (Context.smart_clean_html (clean w html)
              (Some (Subject.extract_subject intent))) as [focused text].
  cbn [fst snd] in Ha, Hb. intros r. subst r.
  unfold mbind, prog_bind.
  rewrite (appends_strategy_a w html focused intent), Ha.
  unfold healing_run.
  destruct (select_one w html (candidate w html intent)) as [| |found];
    [| |destruct (0 <? PyStr.len found)]; cbn [fst snd].
  all: try rewrite (appends_strategy_b w text intent), Hb; cbn [fst snd ended].
  all: split; flatten.
Qed.

Lemma cascade_form (w : world) (html intent : string) (sim : bool) :
  (cascade w html intent sim []).1 = (cascade_run w html intent sim).1
  ∧ ended (cascade w html intent sim []).2 = (cascade_run w html intent sim).2.
Proof.
  unfold cascade, cascade_run.
  rewrite (bind_run _ _ _ _ _ (try_cache_run sim [])).
  rewrite bind_emit.
  pose proof (try_json_ld_run w html intent
                (([] ++ cache_log sim) ++ [Ui CheckingJsonLd])) as Hj.
  destruct (price_found w html intent).
  - rewrite (bind_stop _ _ _ _ _ Hj). cbn [fst snd ended]. split; flatten.
  - rewrite (bind_run _ _ _ _ _ Hj). rewrite !bind_emit.
    pose proof (healing_form w html intent
                  (cache_log sim ++ [Ui CheckingJsonLd])) as Hh.
    destruct (Context.smart_clean_html (clean w html)
                (Some (Subject.extract_subject intent))) as [focused text].
    cbn zeta in Hh.
    replace (((([] ++ cache_log sim) ++ [Ui CheckingJsonLd]) ++ [Ui Engaging])
             ++ [Ui (Focusing (Subject.extract_subject intent))])
      with ((cache_log sim ++ [Ui CheckingJsonLd])
            ++ [Ui Engaging; Ui (Focusing (Subject.extract_subject intent))])
      by flatten.
    exact Hh.
Qed.

Lemma fetch_html_quiet (b : Fetch.backend) (url : string) :
  Forall quiet (Fetch.fetch_html b url []).1.
Proof.
  destruct (Fetch.is_hard_target url && Fetch.SELENIUM_AVAILABLE b) eqn:Hcase.
  - destruct (Fetch.chrome b) as [[]|e] eqn:Hchrome.
    + destruct (fetch_html_stealth b url [] Hcase Hchrome) as (r & -> & _).
      destruct (Fetch.driver_get b url); repeat constructor.
    + rewrite (fetch_html_launch_fails b url [] e) by done.
      repeat constructor.
  - rewrite fetch_html_direct by done. repeat constructor.
Qed.

Lemma run_no_input (w : world) (url intent : string) (sim : bool) :
  url = "" ∨ intent = "" →
  run w url intent sim = ([Ui MissingInput], NoInput).
Proof.
  intros H. unfold run, launch_agent, check_input.
  assert (negb (PyStr.truthy url) || negb (PyStr.truthy intent) = true) as ->.
  { destruct H as [-> | ->]; [done|]. by destruct url. }
  reflexivity.
Qed.

Lemma fetch_page_run (w : world) (url : string) :
  fetch_page w url []
  = let flog := (Fetch.fetch_html (web w) url []).1 in
    match fetched w url with
    | inl e => (Ui (Connecting url) :: flog, inr (Crashed e))
    | inr (Some html) =>
        if PyStr.truthy html
        then (Ui (Connecting url) :: flog, inl html)
        else (Ui (Connecting url) :: flog ++ [Ui LoadFailedMsg], inr LoadFailed)
    | inr None => (Ui (Connecting url) :: flog ++ [Ui LoadFailedMsg], inr LoadFailed)
    end.
Proof.
  unfold fetch_page, fetched. rewrite bind_emit. cbn [app].
  unfold mbind, prog_bind, uncaught.
  rewrite (appends_fetch_html (web w) url [Ui (Connecting url)]).
  destruct (Fetch.fetch_html (web w) url []) as [flog [[html|]|e]];
    cbn [fst snd]; [|run_prog; flatten..].
  destruct (PyStr.truthy html); run_prog; flatten.
Qed.

(** A run on filled-in input: the fetch, then the load failure, the
    crash, or the cascade. *)
Lemma run_form (w : world) (url intent : string) (sim : bool) :
  url ≠ "" → intent ≠ "" →
  run w url intent sim
  = let flog := (Fetch.fetch_html (web w) url []).1 in
    match fetched w url with
    | inl e => (Ui (Connecting url) :: flog, Crashed e)
    | inr (Some html) =>
        if PyStr.truthy html
        then (Ui (Connecting url) :: flog ++ (cascade_run w html intent sim).1,
              (cascade_run w html intent sim).2)
        else (Ui (Connecting url) :: flog ++ [Ui LoadFailedMsg], LoadFailed)
    | inr None => (Ui (Connecting url) :: flog ++ [Ui LoadFailedMsg], LoadFailed)
    end.
Proof.
  intros Hurl Hintent. unfold run, launch_agent, check_input.
  assert (negb (PyStr.truthy url) || negb (PyStr.truthy intent) = false) as ->.
  { by destruct url, intent. }
  rewrite (bind_run _ _ [] [] ()) by reflexivity.
  unfold mbind, prog_bind. rewrite fetch_page_run. cbn zeta.
  destruct (fetched w url) as [e|[html|]]; [done| |done].
  destruct (PyStr.truthy html); [|done].
  rewrite (appends_cascade w html intent sim).
  destruct (cascade_form w html intent sim) as [Hlog Hend].
  destruct (cascade w html intent sim []) as [clog r]. cbn [fst snd] in *.
  by rewrite Hlog, Hend.
Qed.

Lemma run_loads (w : world) (url intent html : string) (sim : bool) :
  loads w url intent html →
  run w url intent sim
  = (Ui (Connecting url) :: (Fetch.fetch_html (web w) url []).1
       ++ (cascade_run w html intent sim).1,
     (cascade_run w html intent sim).2).
Proof.
  intros (Hurl & Hintent & Hhtml & Hfetch).
  rewrite run_form by done. rewrite Hfetch. cbn zeta.
  by destruct html.
Qed.

Lemma path_app (l1 l2 : list event) : path (l1 ++ l2) = path l1 ++ path l2.
Proof. apply omap_app. Qed.

Lemma path_quiet (l : list event) : Forall quiet l → path l = [].
Proof.
  induction 1 as [|e l [He _] _ IH]; [done|].
  unfold path in *. simpl. by rewrite He.
Qed.

Lemma path_noise (post : endpoint) (prompt : string) (t : Z) :
  path (noise post prompt t) = [].
Proof. by destruct (noise_cases post prompt t) as [-> | ->]. Qed.

Lemma path_cache_log (sim : bool) :
  path (cache_log sim) = if sim then [CacheCheck] else [].
Proof. by destruct sim. Qed.

Lemma path_selector_log (w : world) (html intent : string) :
  path (selector_log w html intent) = [].
Proof.
  unfold selector_log. rewrite !path_app, path_noise. reflexivity.
Qed.

(** The text fallback: one request, then success or failure. *)
Lemma fallback_run_cases (w : world) (html intent : string) :
  ∃ asking,
    path asking = [TextFallbackCheck]
    ∧ OllamaPost OLLAMA_MODEL
        (extraction_prompt (page_text w html intent) intent) 5 8192 30 ∈ asking
    ∧ ((∃ answer,
          answer ≠ ""
          ∧ direct_answer w html intent = Some answer
          ∧ fallback_run w html intent
            = (asking ++ Ui (HealedText answer)
                 :: [Ui (SuccessMsg answer); Ui Balloons],
               Success TextFallback answer))
       ∨ ((direct_answer w html intent = None
           ∨ direct_answer w html intent = Some "")
          ∧ fallback_run w html intent = (asking ++ [Ui AllFailed], Failed))).
Proof.
  unfold fallback_run.
  set (prompt := extraction_prompt (page_text w html intent) intent).
  exists ([Ui Fallback; OllamaPost OLLAMA_MODEL prompt 5 8192 30]
          ++ noise (ollama w) prompt 5).
  split; [|split; [|destruct (direct_answer w html intent) as [[|c answer]|]]].
  - rewrite path_app, path_noise. reflexivity.
  - apply elem_of_app. left. apply list_elem_of_further, list_elem_of_here.
  - right. split; [by right|done].
  - left. by exists (String c answer).
  - right. split; [by left|done].
Qed.

(** The healing section: the candidate is accepted, or the text fallback
    decides. *)
Lemma healing_run_cases (w : world) (html intent : string) :
  ∃ trying,
    path trying = [SelectorHealing]
    ∧ SelectOne (candidate w html intent) ∈ trying
    ∧ ((∃ text,
          text ≠ ""
          ∧ select_one w html (candidate w html intent) = Element text
          ∧ healing_run w html intent
            = (trying ++ Ui (HealedSelector text)
                 :: [Ui (SuccessMsg text); Ui Balloons],
               Success Selector text))
       ∨ ((∀ text, select_one w html (candidate w html intent) = Element text
                   → text = "")
          ∧ ∃ said,
              path said = []
              ∧ healing_run w html intent
                = (trying ++ said ++ (fallback_run w html intent).1,
                   (fallback_run w html intent).2))).
Proof.
  unfold healing_run.
  exists ([Ui Engaging; Ui (Focusing (Subject.extract_subject intent))]
          ++ selector_log w html intent).
  split; [by rewrite path_app, path_selector_log|]. split.
  { unfold selector_log. rewrite !elem_of_app. right. right. right.
    apply list_elem_of_further, list_elem_of_here. }
  destruct (select_one w html (candidate w html intent)) as [| |[|c text]].
  - right. split; [done|]. by exists [Ui SelectorFailed].
  - right. split; [done|]. by exists [].
  - right. split; [by intros ? [= <-]|]. by exists [].
  - left. exists (String c text). split_and!; try done.
Qed.

End AgentFacts.

Section CascadeFacts.
Import Py Trace Agent Design Ollama Forms.

Lemma price_found_spec (w : world) (html intent : string) :
  price_found w html intent = true
  ↔ PyStr.contains "price" (Subject.extract_subject intent) = true
    ∧ ∃ v, JsonLd.parse_json_ld (ld_json w html) !! "price" = Some v.
Proof.
  unfold price_found. rewrite andb_true_iff, bool_decide_eq_true.
  by unfold is_Some.
Qed.

Lemma fallback_run_verdict (w : world) (html intent : string) :
  (fallback_run w html intent).2 = Failed
  ∨ ∃ answer, (fallback_run w html intent).2 = Success TextFallback answer.
Proof.
  destruct (fallback_run_cases w html intent)
    as (asking & _ & _ & [(answer & _ & _ & ->)|[_ ->]]); eauto.
Qed.

Lemma healing_run_verdict (w : world) (html intent : string) :
  (healing_run w html intent).2 = Failed
  ∨ (∃ answer, (healing_run w html intent).2 = Success TextFallback answer)
  ∨ (∃ text, (healing_run w html intent).2 = Success Selector text).
Proof.
  destruct (healing_run_cases w html intent)
    as (trying & _ & _ & [(text & _ & _ & ->)|[_ (said & _ & ->)]]).
  - right. right. by exists text.
  - destruct (fallback_run_verdict w html intent) as [H|H]; auto.
Qed.

(** Every cascade is a sequence of stage work followed by a verdict that
    only reports: a success entered from the stage that found the value,
    or the final failure after all three stages. *)
Lemma cascade_run_shape (w : world) (html intent : string) (sim : bool) :
  ∃ before marker after,
    (cascade_run w html intent sim).1 = before ++ marker :: after
    ∧ Forall (λ e, reports e = true) after
    ∧ path after = []
    ∧ ((∃ strategy value,
          (cascade_run w html intent sim).2 = Success strategy value
          ∧ enters marker = Some SuccessState
          ∧ strategy ≠ Cache
          ∧ path before = path (cache_log sim) ++ stages_to (stage_of strategy))
       ∨ ((cascade_run w html intent sim).2 = Failed
          ∧ enters marker = Some FailedState
          ∧ path before
            = path (cache_log sim) ++ stages_to TextFallbackCheck)).
Proof.
  unfold cascade_run. destruct (price_found w html intent); cbn [fst snd].
  { eexists (cache_log sim ++ [Ui CheckingJsonLd]), _, _.
    split; [reflexivity|]. split; [repeat constructor|]. split; [done|].
    left. eexists StructuredData, _. split_and!; try done.
    by rewrite path_app. }
  destruct (healing_run_cases w html intent)
    as (trying & Htrying & _ & [(text & _ & _ & ->)|[_ (said & Hsaid & ->)]]);
    cbn [fst snd].
  { eexists ((cache_log sim ++ [Ui CheckingJsonLd]) ++ trying), _, _.
    split; [by rewrite <- !app_assoc|]. split; [repeat constructor|].
    split; [done|].
    left. eexists Selector, _. split_and!; try done.
    rewrite !path_app, Htrying. by rewrite <- app_assoc. }
  destruct (fallback_run_cases w html intent)
    as (asking & Hasking & _ & [(answer & _ & _ & ->)|[_ ->]]); cbn [fst snd].
  - eexists ((cache_log sim ++ [Ui CheckingJsonLd]) ++ trying ++ said ++ asking), _, _.
    split; [by rewrite <- !app_assoc|]. split; [repeat constructor|].
    split; [done|].
    left. eexists TextFallback, _. split_and!; try done.
    rewrite !path_app, Htrying, Hsaid, Hasking. by rewrite <- app_assoc.
  - eexists ((cache_log sim ++ [Ui CheckingJsonLd]) ++ trying ++ said ++ asking), _, _.
    split; [by rewrite <- !app_assoc|]. split; [constructor|].
    split; [done|].
    right. split_and!; try done.
    rewrite !path_app, Htrying, Hsaid, Hasking. by rewrite <- app_assoc.
Qed.

End CascadeFacts.

(** ** The structured-data stage *)

(** C1, counterexample. The intent "Extract the description" gives the
    subject "description", which is the name of a field the record holds;
    the run does not end with that field: it goes on to the healing
    strategies and, with no model to ask, fails. *)
Lemma loose_match_fails : ¬ Design.loose_match.
Proof.
  intros H.
  specialize (H (Samples.world_of [Py.Ok Samples.lamp] Samples.no_model)
                "https://shop.example/lamp" "Extract the description"
                Samples.page true "description" (Py.JStr "A desk lamp")).
  assert (Agent.Failed = Agent.Success Agent.StructuredData "A desk lamp") as Habs;
    [|discriminate Habs].
  apply H.
  - split_and!; first [done | vm_compute; reflexivity].
  - vm_compute. reflexivity.
  - vm_compute. reflexivity.
Qed.

(** C1 (amended). On a loaded page, the run ends in Success with strategy
    structured-data exactly when the literal "price" is a substring of the
    subject and the record has a [price] field, and the value returned is
    that price; the fields [name] and [description] are never returned by
    this stage. When it ends so, the states passed are the fetch, the
    cache check if simulated, the structured-data check and Success, and no
    call of the healing strategies is made. *)
Theorem structured_data_verdict
    (w : Agent.world) (url intent html : string) (simulate_break : bool) :
  Design.loads w url intent html →
  let record := JsonLd.parse_json_ld (Agent.ld_json w html) in
  let subject := Subject.extract_subject intent in
  let log := (Agent.run w url intent simulate_break).1 in
  let outcome := (Agent.run w url intent simulate_break).2 in
  (∀ value,
      outcome = Agent.Success Agent.StructuredData value
      ↔ PyStr.contains "price" subject = true
        ∧ ∃ v, record !! "price" = Some v ∧ value = Py.str v)
  ∧ (∀ value,
        outcome = Agent.Success Agent.StructuredData value →
        Design.path log
        = (if simulate_break
           then [Design.Init; Design.CacheCheck;
                 Design.StructuredDataCheck; Design.SuccessState]
           else [Design.Init; Design.StructuredDataCheck; Design.SuccessState])
        ∧ Forall (λ e, Design.healing_call e = false) log).
Proof.
  intros Hloads record subject log outcome.
  subst log outcome. rewrite (run_loads w url intent html) by done.
  cbn [fst snd]. unfold Forms.cascade_run.
  pose proof (price_found_spec w html intent) as Hspec.
  fold record subject in Hspec.
  destruct (Design.price_found w html intent); cbn [fst snd].
  - destruct (proj1 Hspec eq_refl) as (Hc & v & Hv).
    rewrite (lookup_total_correct _ _ _ Hv). split.
    + intros value. split.
      * intros [= <-]. eauto.
      * intros (_ & v' & Hv' & ->). congruence.
    + intros value _. split.
      * change (Design.path (?e :: ?l)) with (Design.Init :: Design.path l).
        rewrite !path_app, (path_quiet _ (fetch_html_quiet _ _)).
        by destruct simulate_break.
      * constructor; [done|]. rewrite !Forall_app. split_and!.
        -- eapply Forall_impl; [apply fetch_html_quiet|]. by intros e [_ ?].
        -- destruct simulate_break; repeat constructor.
        -- repeat constructor.
        -- repeat constructor.
  - assert (∀ value, (Forms.healing_run w html intent).2
                     ≠ Agent.Success Agent.StructuredData value) as Hnot.
    { intros value Heq.
      destruct (healing_run_verdict w html intent) as [H|[[? H]|[? H]]];
        rewrite H in Heq; discriminate Heq. }
    split.
    + intros value. split.
      * intros Heq. by destruct (Hnot value).
      * intros (Hc & v & Hv & _).
        assert (false = true); [|done]. apply Hspec. eauto.
    + intros value Heq. by destruct (Hnot value).
Qed.

Lemma structured_data_verdict_witness :
  (Agent.run (Samples.world_of [Py.Ok Samples.book] Samples.no_model)
     "https://books.example/1" "Extract the price" true).2
  = Agent.Success Agent.StructuredData "GBP 24.99".
Proof.
  assert (Design.loads (Samples.world_of [Py.Ok Samples.book] Samples.no_model)
            "https://books.example/1" "Extract the price" Samples.page) as Hloads.
  { split_and!; first [done | vm_compute; reflexivity]. }
  destruct (structured_data_verdict _ _ _ _ true Hloads) as [Hiff _].
  apply Hiff. split; [vm_compute; reflexivity|].
  exists (Py.JStr "GBP 24.99"). split; vm_compute; reflexivity.
Defined.

(** ** The order of the stages *)

Section OrderFacts.
Import Py Trace Agent Design Forms.

Lemma forward_paths (sim : bool) (stage last : state) :
  stage ∈ [StructuredDataCheck; SelectorHealing; TextFallbackCheck] →
  last ∈ [SuccessState; FailedState] →
  StronglySorted (λ s t, (rank s < rank t)%nat)
    (Init :: (path (cache_log sim) ++ stages_to stage) ++ [last]).
Proof.
  intros Hstage Hlast. rewrite path_cache_log.
  repeat (apply elem_of_cons in Hstage as [->|Hstage]);
    [..|by apply elem_of_nil in Hstage].
  all: repeat (apply elem_of_cons in Hlast as [->|Hlast]);
    [..|by apply elem_of_nil in Hlast].
  all: destruct sim; simpl.
  all: repeat (constructor; simpl; try lia).
Qed.

Lemma stage_of_cases (strategy : strategy) :
  strategy ≠ Cache →
  stage_of strategy ∈ [StructuredDataCheck; SelectorHealing; TextFallbackCheck].
Proof.
  destruct strategy; [done|..]; intros _; simpl.
  - apply list_elem_of_here.
  - apply list_elem_of_further, list_elem_of_here.
  - do 2 apply list_elem_of_further. apply list_elem_of_here.
Qed.

Lemma stages_to_last (sim : bool) (strategy : strategy) :
  strategy ≠ Cache →
  last (Init :: path (cache_log sim) ++ stages_to (stage_of strategy))
  = Some (stage_of strategy)
  ∧ Forall (λ s, (rank s ≤ rank (stage_of strategy))%nat)
      (Init :: path (cache_log sim) ++ stages_to (stage_of strategy)).
Proof.
  rewrite path_cache_log.
  destruct strategy; [done|..]; intros _; destruct sim; simpl.
  all: split; [done|]. 
  all: repeat (constructor; simpl; try lia).
Qed.

End OrderFacts.

(** C3. In every run the states entered come in the order of the cascade,
    each at most once and none after a later one. When a stage yields
    Success, Success is entered from that stage: no state of a later stage
    is entered, and all that follows in the log is the report of the
    result, with no further call to the model or to the page. *)
Theorem run_forward
    (w : Agent.world) (url intent : string) (simulate_break : bool) :
  let log := (Agent.run w url intent simulate_break).1 in
  let outcome := (Agent.run w url intent simulate_break).2 in
  StronglySorted (λ s t, (Design.rank s < Design.rank t)%nat) (Design.path log)
  ∧ (∀ strategy value,
        outcome = Agent.Success strategy value →
        ∃ before marker after,
          log = before ++ marker :: after
          ∧ Design.enters marker = Some Design.SuccessState
          ∧ last (Design.path before) = Some (Design.stage_of strategy)
          ∧ Forall (λ s, (Design.rank s ≤ Design.rank (Design.stage_of strategy))%nat)
              (Design.path before)
          ∧ Design.path after = []
          ∧ Forall (λ e, Design.reports e = true) after
          ∧ Forall (λ e, Design.healing_call e = false) after).
Proof.
  intros log outcome. subst log outcome.
  destruct (decide (url = "")) as [Hurl|Hurl];
    [rewrite run_no_input by auto; split; [constructor|done]|].
  destruct (decide (intent = "")) as [Hintent|Hintent];
    [rewrite run_no_input by auto; split; [constructor|done]|].
  rewrite run_form by done. cbn zeta.
  pose proof (path_quiet _ (fetch_html_quiet (Agent.web w) url)) as Hquiet.
  assert (∀ l, Design.path (Trace.Ui (Trace.Connecting url)
                            :: (Fetch.fetch_html (Agent.web w) url []).1 ++ l)
               = Design.Init :: Design.path l) as Hpath.
  { intros l. change (Design.path (?e :: ?k)) with (Design.Init :: Design.path k).
    by rewrite path_app, Hquiet. }
  destruct (Design.fetched w url) as [e|[html|]]; cbn [fst snd].
  - split; [|done].
    rewrite <- (app_nil_r (_ :: _)), <- app_comm_cons, Hpath.
    repeat constructor.
  - destruct (PyStr.truthy html); cbn [fst snd];
      [|split; [rewrite Hpath; repeat (constructor; simpl; try lia)|done]].
    destruct (cascade_run_shape w html intent simulate_break)
      as (before & marker & after & Hlog & Hreports & Hafter & Hverdict).
    rewrite Hlog, Hpath.
    assert (Design.path (before ++ marker :: after)
            = Design.path before ++ Design.path [marker]) as Hsplit.
    { rewrite path_app. change (marker :: after) with ([marker] ++ after).
      by rewrite path_app, Hafter, app_nil_r. }
    rewrite Hsplit.
    destruct Hverdict as [(strategy & value & Hout & Hmark & Hne & Hbefore)
                         |(Hout & Hmark & Hbefore)].
    + rewrite Hout, Hbefore. split.
      * replace (Design.path [marker]) with [Design.SuccessState]
          by (unfold Design.path; simpl; by rewrite Hmark).
        apply forward_paths; [by apply stage_of_cases|apply list_elem_of_here].
      * intros strategy' value' [= <- <-].
        exists (Trace.Ui (Trace.Connecting url)
                :: (Fetch.fetch_html (Agent.web w) url []).1 ++ before),
               marker, after.
        rewrite Hpath, Hbefore.
        destruct (stages_to_last simulate_break strategy Hne) as [Hlast Hle].
        split_and!; try done.
        -- simpl. by rewrite <- app_assoc.
        -- eapply Forall_impl; [exact Hreports|]. by intros [] ?.
    + rewrite Hout, Hbefore. split; [|done].
      replace (Design.path [marker]) with [Design.FailedState]
        by (unfold Design.path; simpl; by rewrite Hmark).
      apply forward_paths.
      * do 2 apply list_elem_of_further. apply list_elem_of_here.
      * apply list_elem_of_further, list_elem_of_here.
  - split; [rewrite Hpath; repeat (constructor; simpl; try lia)|done].
Qed.

Lemma run_forward_witness :
  ∃ before marker after,
    (Agent.run (Samples.world_of [] (Samples.model "p.price" "unused"))
       "https://books.example/1" "Extract the price" true).1
    = before ++ marker :: after
    ∧ Design.enters marker = Some Design.SuccessState
    ∧ last (Design.path before) = Some Design.SelectorHealing
    ∧ Forall (λ e, Design.healing_call e = false) after.
Proof.
  destruct (run_forward (Samples.world_of [] (Samples.model "p.price" "unused"))
              "https://books.example/1" "Extract the price" true) as [_ Hstop].
  destruct (Hstop Agent.Selector "51.77")
    as (before & marker & after & Hlog & Hmark & Hlast & _ & _ & _ & Hcalls);
    [vm_compute; reflexivity|].
  by exists before, marker, after.
Defined.

(** ** The selector stage *)

(** C5. On a loaded page whose structured data did not settle the run, the
    candidate selector the model proposes is applied to the page, and the
    run ends in Success with strategy selector exactly when an element
    matches and the stripped text of the first match is not empty. When
    the query raises, matches nothing, or matches an element with blank
    text, the run is not aborted: the text fallback is entered, its
    request is sent, and its verdict is the outcome of the run. *)
Theorem selector_verdict
    (w : Agent.world) (url intent html : string) (simulate_break : bool) :
  Design.loads w url intent html →
  Design.price_found w html intent = false →
  let selector := Design.candidate w html intent in
  let log := (Agent.run w url intent simulate_break).1 in
  let outcome := (Agent.run w url intent simulate_break).2 in
  Trace.SelectOne selector ∈ log
  ∧ (∀ text,
        outcome = Agent.Success Agent.Selector text
        ↔ Agent.select_one w html selector = Agent.Element text ∧ text ≠ "")
  ∧ (Agent.select_one w html selector = Agent.SelectRaised
     ∨ Agent.select_one w html selector = Agent.NoElement
     ∨ Agent.select_one w html selector = Agent.Element "" →
     Design.TextFallbackCheck ∈ Design.path log
     ∧ Trace.OllamaPost Ollama.OLLAMA_MODEL
         (Ollama.extraction_prompt (Design.page_text w html intent) intent)
         5 8192 30 ∈ log
     ∧ (∀ answer,
           outcome = Agent.Success Agent.TextFallback answer
           ↔ Design.direct_answer w html intent = Some answer ∧ answer ≠ "")
     ∧ (outcome = Agent.Failed
        ∨ ∃ answer, outcome = Agent.Success Agent.TextFallback answer)).
Proof.
  intros Hloads Hprice selector log outcome. subst selector log outcome.
  rewrite (run_loads w url intent html) by done.
  unfold Forms.cascade_run. rewrite Hprice. cbn [fst snd].
  destruct (healing_run_cases w html intent)
    as (trying & Htrying & Hselect
        & [(text & Htext & Hfound & ->)|[Hblank (said & Hsaid & ->)]]);
    cbn [fst snd].
  - split_and!.
    + apply list_elem_of_further. rewrite !elem_of_app. auto.
    + intros text'. rewrite Hfound. split.
      * by intros [= <-].
      * by intros [[= <-] _].
    + rewrite Hfound. intros [H|[H|H]]; try discriminate H.
      injection H as ->. done.
  - destruct (fallback_run_cases w html intent)
      as (asking & Hasking & Hpost & Hverdict).
    assert ((Forms.fallback_run w html intent).1
            = asking ++ drop (length asking) (Forms.fallback_run w html intent).1)
      as Hlog.
    { destruct Hverdict as [(answer & _ & _ & ->)|[_ ->]]; cbn [fst];
        by rewrite drop_app_length. }
    split_and!.
    + apply list_elem_of_further. rewrite !elem_of_app. auto.
    + intros text. split.
      * intros Hout. exfalso.
        destruct (fallback_run_verdict w html intent) as [H|[? H]];
          rewrite H in Hout; discriminate Hout.
      * intros [Hel Hne]. by destruct (Hne (Hblank _ Hel)).
    + intros _. split_and!.
      * change (Design.path (?e :: ?k)) with (Design.Init :: Design.path k).
        rewrite Hlog, !path_app, Hasking.
        apply list_elem_of_further. rewrite !elem_of_app.
        right. right. right. right. left. apply list_elem_of_here.
      * apply list_elem_of_further. rewrite Hlog, !elem_of_app. auto 10.
      * intros answer.
        destruct Hverdict as [(found & Hne & Hanswer & ->)|[Hnone ->]];
          cbn [snd]; rewrite ?Hanswer.
        -- split; [by intros [= <-]|by intros [[= <-] _]].
        -- split; [done|]. intros [Hanswer Hne].
           destruct Hnone as [Hnone|Hnone]; rewrite Hnone in Hanswer;
             [done|by injection Hanswer as <-].
      * destruct (fallback_run_verdict w html intent) as [H|[? H]]; eauto.
Qed.

(** Scenario 3: the proposed selector matches nothing. *)
Lemma selector_verdict_witness :
  Design.TextFallbackCheck
  ∈ Design.path
      (Agent.run (Samples.world_of [] (Samples.model "div.cost" " 51.77 "))
         "https://books.example/1" "Extract the price" true).1
  ∧ (Agent.run (Samples.world_of [] (Samples.model "div.cost" " 51.77 "))
       "https://books.example/1" "Extract the price" true).2
    = Agent.Success Agent.TextFallback "51.77".
Proof.
  assert (Design.loads (Samples.world_of [] (Samples.model "div.cost" " 51.77 "))
            "https://books.example/1" "Extract the price" Samples.page) as Hloads.
  { split_and!; first [done | vm_compute; reflexivity]. }
  destruct (selector_verdict _ _ _ _ true Hloads) as (_ & _ & Hreject);
    [vm_compute; reflexivity|].
  destruct Hreject as (Hpath & _ & Hout & _);
    [right; left; vm_compute; reflexivity|].
  split; [exact Hpath|]. apply Hout. split; [vm_compute; reflexivity|done].
Defined.

(* ===================================================================== *)
(** * Part III: further properties of the code                            *)
(* ===================================================================== *)

(** ** The subject is one word *)

Section WordFacts.
Import PyStr Design.

Lemma str_app_assoc (a b c : string) : (a +:+ b) +:+ c = a +:+ b +:+ c.
Proof. induction a; rewrite ?str_app_cons, ?str_app_nil; congruence. Qed.

Lemma str_app_empty_r (s : string) : s +:+ "" = s.
Proof. induction s; rewrite ?str_app_cons, ?str_app_nil; congruence. Qed.

(** A text of word characters only is read as one token. *)
Lemma scan_words_word (s tok : string) :
  word s = true → scan_words tok s = flush (tok +:+ s).
Proof.
  revert tok. induction s as [|c s IH]; intros tok Hw; simpl.
  - by rewrite str_app_empty_r.
  - simpl in Hw. apply andb_true_iff in Hw as [Hc Hs]. rewrite Hc.
    rewrite IH by done. by rewrite str_app_assoc.
Qed.

Lemma findall_words_token (w : string) :
  token w → findall_words (lower w) = [w].
Proof.
  intros (Hne & Hw & Hl). rewrite Hl. unfold findall_words.
  rewrite scan_words_word by done. rewrite str_app_nil. by destruct w.
Qed.

Lemma extract_subject_is_token (intent : string) :
  token (Subject.extract_subject intent).
Proof.
  pose proof (findall_words_tokens intent) as Htok.
  rewrite Forall_forall in Htok.
  unfold Subject.extract_subject.
  destruct (last (filter _ _)) as [c|] eqn:Hc.
  - apply last_Some_elem_of, list_elem_of_filter in Hc as [_ Hin]. by apply Htok.
  - destruct (last (findall_words (lower intent))) as [w|] eqn:Hw.
    + apply last_Some_elem_of in Hw. by apply Htok.
    + split_and!; [done|vm_compute; reflexivity..].
Qed.

Lemma extract_subject_of_token (w : string) :
  token w → Subject.extract_subject w = w.
Proof.
  intros Hw. unfold Subject.extract_subject.
  rewrite (findall_words_token w Hw). rewrite filter_cons, filter_nil.
  by destruct (decide (w ∉ Subject.stop_words)).
Qed.

End WordFacts.

(** X1. The subject is a single word of [\w] characters, and extracting
    the subject of a subject gives it back: [extract_subject] is
    idempotent. *)
Theorem extract_subject_idempotent (intent : string) :
  Design.word (Subject.extract_subject intent) = true
  ∧ Subject.extract_subject (Subject.extract_subject intent)
    = Subject.extract_subject intent.
Proof.
  pose proof (extract_subject_is_token intent) as Htok.
  split; [apply Htok|]. by apply extract_subject_of_token.
Qed.

(** ** The size and the content of the context window *)

Section WindowFacts.
Import PyStr Design.

Lemma find_cases (s sub : string) :
  (find s sub = -1 ∧ ∀ i, ¬ occurs_at s sub i) ∨ first_match s sub (find s sub).
Proof.
  unfold find.
  destruct (find_from_spec s sub 0) as [?|(k & -> & Hk)]; [lia|by left|by right].
Qed.

Lemma occurs_at_bounds (s sub : string) (i : Z) :
  occurs_at s sub i → 0 ≤ i ∧ i + len sub ≤ len s.
Proof.
  intros (before & after & -> & <-). rewrite !len_app.
  pose proof (len_nonneg before). pose proof (len_nonneg after). lia.
Qed.

Lemma len_slice (s : string) (a b : Z) :
  0 ≤ a → a ≤ b → b ≤ len s → len (slice s a b) = b - a.
Proof.
  intros Ha Hab Hb.
  destruct (slice_spec s a b Ha Hab Hb) as (before & after & _ & H1 & H2). lia.
Qed.

Lemma len_slice_to (s : string) : len (slice_to s 4000) = Z.min 4000 (len s).
Proof.
  destruct (slice_to_spec s) as (before & after & _ & H1 & H2). lia.
Qed.

(** The two shapes of the reducer's first result. *)
Lemma smart_clean_html_cases (soup : Context.cleaned) (target : option string) :
  let body := Context.body_text soup in
  ((∀ keyword, target = Some keyword → keyword ≠ "" →
               find (lower body) (lower keyword) = -1)
   ∧ (Context.smart_clean_html soup target).1 = slice_to body 4000)
  ∨ ∃ keyword idx,
      target = Some keyword
      ∧ keyword ≠ ""
      ∧ first_match (lower body) (lower keyword) idx
      ∧ (Context.smart_clean_html soup target).1
        = "..." +:+ slice body (Z.max 0 (idx - 500))
                      (Z.min (len body) (idx + 1500)) +:+ "...".
Proof.
  intros body. unfold Context.smart_clean_html. fold body.
  destruct target as [[|c keyword]|];
    [left; split; [by intros ? [= <-]|done]| |left; split; [done|done]].
  cbn [truthy].
  destruct (find_cases (lower body) (lower (String c keyword))) as [[Hf _]|Hfirst].
  - left. rewrite Hf. split; [by intros ? [= <-]|done].
  - pose proof (occurs_at_bounds _ _ _ (proj1 Hfirst)) as [Hlo _].
    destruct (_ =? -1) eqn:Hneg; [lia|]. right.
    by exists (String c keyword), (find (lower body) (lower (String c keyword))).
Qed.

(** If [a ++ b] and [c ++ d] are the same text and [a] is not longer than
    [c], then [c] continues [a]. *)
Lemma str_app_split (a b c d : string) :
  a +:+ b = c +:+ d → len a ≤ len c → ∃ m, c = a +:+ m ∧ b = m +:+ d.
Proof.
  revert c. induction a as [|x a IH]; intros c Heq Hlen.
  - exists c. by rewrite !str_app_nil in *.
  - destruct c as [|y c].
    + unfold len in Hlen. simpl in Hlen. lia.
    + rewrite !str_app_cons in Heq. injection Heq as -> Heq.
      destruct (IH c Heq) as (m & -> & ->).
      { unfold len in *. simpl in Hlen. lia. }
      exists m. by rewrite str_app_cons.
Qed.

(** An occurrence that lies inside a slice of the text occurs in the
    slice. *)
Lemma occurs_in_slice (s sub window : string) (a b i : Z) :
  is_slice s a b window → occurs_at s sub i →
  a ≤ i → i + len sub ≤ b →
  occurs_at window sub (i - a).
Proof.
  intros (before & after & Hs & Ha & Hb) (pre & post & Hs' & Hi) Hai Hib.
  rewrite Hs in Hs'.
  destruct (str_app_split before (window +:+ after) pre (sub +:+ post) Hs')
    as (m & -> & Hrest); [lia|].
  rewrite len_app in Hi.
  rewrite <- str_app_assoc in Hrest. symmetry in Hrest.
  destruct (str_app_split (m +:+ sub) post window after Hrest)
    as (m' & -> & _); [rewrite len_app; lia|].
  exists m, m'. split; [by rewrite str_app_assoc|lia].
Qed.

Lemma occurs_at_wrap (s sub pre post : string) (i : Z) :
  occurs_at s sub i → occurs_at (pre +:+ s +:+ post) sub (len pre + i).
Proof.
  intros (before & after & -> & <-).
  exists (pre +:+ before), (after +:+ post).
  split; [by rewrite !str_app_assoc|by rewrite len_app].
Qed.

End WindowFacts.

(** The focused HTML is the head of the body, of at most 4000 characters,
    or a window of at most 2000 characters between two ellipses. *)
Lemma smart_clean_html_len (soup : Context.cleaned) (target : option string) :
  PyStr.len (Context.smart_clean_html soup target).1 ≤ 4000
  ∧ ((∃ keyword, target = Some keyword ∧ keyword ≠ ""
                 ∧ PyStr.find (PyStr.lower (Context.body_text soup))
                     (PyStr.lower keyword) ≠ -1) →
     PyStr.len (Context.smart_clean_html soup target).1 ≤ 2006).
Proof.
  destruct (smart_clean_html_cases soup target)
    as [[Hmiss Hhead]|(keyword & idx & Htarget & Hne & [Hocc _] & Hrun)].
  - split; [rewrite Hhead, len_slice_to; lia|].
    intros (keyword & Htarget & Hne & Hfound).
    by destruct (Hfound (Hmiss keyword Htarget Hne)).
  - apply occurs_at_bounds in Hocc as [Hlo Hhi]. rewrite !len_lower in Hhi.
    pose proof (len_nonneg keyword).
    assert (PyStr.len (Context.smart_clean_html soup target).1 ≤ 2006);
      [|split; [lia|done]].
    rewrite Hrun, !len_app, len_slice by lia.
    change (PyStr.len "...") with 3. lia.
Qed.

Example smart_clean_html_long_page :
  PyStr.len
    (Context.smart_clean_html
       (Context.Cleaned (String.concat "" (repeat "0123456789" 500) +:+ " price: 7 ")
          "text") (Some "Price")).1
  = 515.
Proof. vm_compute. reflexivity. Qed.

(** X2. The focused HTML the reducer returns never has more than 4000
    characters, whatever the page and the keyword; when the keyword is
    found it has at most 2006: the window of at most 2000 characters and
    the two ellipses. *)
Theorem smart_clean_html_bounded
    (soup : Context.cleaned) (target_keyword : option string) :
  PyStr.len (Context.smart_clean_html soup target_keyword).1 ≤ 4000
  ∧ (∀ keyword,
        target_keyword = Some keyword → keyword ≠ "" →
        PyStr.contains (PyStr.lower keyword)
          (PyStr.lower (Context.body_text soup)) = true →
        PyStr.len (Context.smart_clean_html soup target_keyword).1 ≤ 2006).
Proof.
  destruct (smart_clean_html_len soup target_keyword) as [Hall Hwin].
  split; [done|]. intros keyword Htarget Hne Hfound. apply Hwin.
  exists keyword. split_and!; [done..|].
  unfold PyStr.contains in Hfound. intros Heq. by rewrite Heq in Hfound.
Qed.

Lemma smart_clean_html_bounded_witness :
  PyStr.len
    (Context.smart_clean_html
       (Context.Cleaned "<b>Price</b>: 9.99" "Price: 9.99") (Some "price")).1
  ≤ 2006.
Proof.
  destruct (smart_clean_html_bounded
              (Context.Cleaned "<b>Price</b>: 9.99" "Price: 9.99") (Some "price"))
    as [_ Hwin].
  apply (Hwin "price"); [reflexivity|done|vm_compute; reflexivity].
Defined.

Lemma is_slice_lower (s window : string) (a b : Z) :
  Design.is_slice s a b window →
  Design.is_slice (PyStr.lower s) a b (PyStr.lower window).
Proof.
  intros (before & after & -> & Ha & Hb).
  exists (PyStr.lower before), (PyStr.lower after).
  by rewrite !lower_app, !len_lower.
Qed.





(** ** What the structured-data record can hold *)

Section RecordFacts.
Import Py JsonLd Design Forms Props.

Lemma keeps_ret {A} (P : gmap string json → Prop) (a : A) : keeps P (mret a).
Proof. by intros d. Qed.

Lemma keeps_eval {A} (P : gmap string json → Prop) (r : result A) :
  keeps P (eval r).
Proof. by intros d. Qed.

Lemma keeps_bind {A B} (P : gmap string json → Prop) (m : M A) (k : A → M B) :
  keeps P m → (∀ a, keeps P (k a)) → keeps P (m ≫= k).
Proof.
  intros Hm Hk d Hd. unfold mbind, M_bind. specialize (Hm d Hd).
  destruct (m d) as [d' [a|e]]; [by apply Hk|done].
Qed.

Lemma record_ok_empty : record_ok ∅.
Proof. split; intros *; by rewrite lookup_empty. Qed.

Lemma keeps_setitem_text (key : string) (v : json) :
  key = "name" ∨ key = "description" → keeps record_ok (setitem key v).
Proof.
  intros Hkey d [Hkeys Hprice]. unfold setitem. cbn [fst]. split.
  - intros k x. rewrite lookup_insert. case_decide as Hk.
    + intros _. subst k. unfold fields.
      destruct Hkey as [-> | ->];
        [apply list_elem_of_here|apply list_elem_of_further, list_elem_of_here].
    + apply Hkeys.
  - intros x. rewrite lookup_insert_ne; [apply Hprice|].
    by destruct Hkey as [-> | ->].
Qed.

Lemma keeps_setitem_price (currency price : string) :
  keeps record_ok (setitem "price" (JStr (currency +:+ " " +:+ price))).
Proof.
  intros d [Hkeys Hprice]. unfold setitem. cbn [fst]. split.
  - intros k x. rewrite lookup_insert. case_decide as Hk.
    + intros _. subst k. unfold fields.
      do 2 apply list_elem_of_further. apply list_elem_of_here.
    + apply Hkeys.
  - intros x. rewrite lookup_insert_eq. intros [= <-]. eexists. split; [done|].
    apply contains_spec. exists (PyStr.len currency). by exists currency, price.
Qed.

Lemma try_body_keeps_record_ok (loaded : result json) :
  keeps record_ok (try_body loaded).
Proof.
  unfold try_body.
  repeat first
    [ apply keeps_bind; [|intros ?]
    | apply keeps_eval
    | apply keeps_ret
    | apply keeps_setitem_price
    | apply keeps_setitem_text; auto; fail
    | match goal with |- keeps _ (if ?b then _ else _) => destruct b end ].
Qed.

Lemma parse_json_ld_ok (scripts : list (result json)) :
  record_ok (parse_json_ld scripts).
Proof.
  induction scripts as [|b scripts IH] using rev_ind; [apply record_ok_empty|].
  rewrite parse_json_ld_snoc. by apply try_body_keeps_record_ok.
Qed.

(** Over a list of blocks, a field is what the list puts there, or what
    was there before. *)
Lemma foldl_loop_step_lookup (scripts : list (result json))
    (d : gmap string json) (field : string) :
  foldl loop_step d scripts !! field
  = match parse_json_ld scripts !! field with
    | Some v => Some v
    | None => d !! field
    end.
Proof.
  induction scripts as [|b scripts IH] using rev_ind.
  - simpl. unfold parse_json_ld. simpl. by rewrite lookup_empty.
  - rewrite parse_json_ld_snoc, foldl_app. simpl.
    rewrite !loop_step_lookup, IH. by destruct (written b field).
Qed.

Local Ltac run_body :=
  unfold loop_step, try_body, eval, setitem, mbind, M_bind, mret, M_ret;
  simpl.

Local Ltac split_ifs :=
  repeat match goal with
         | |- context [if ?b then _ else _] => destruct b; simpl
         end.

(** A block that is not an object, nor an array that starts with one,
    stores nothing. *)
Lemma loop_step_not_object (d : gmap string json) (loaded : result json) :
  (∀ data items, loaded = Ok data → ¬ heads data items) →
  loop_step d loaded = d.
Proof.
  intros Hnot. destruct loaded as [data|e]; [|done].
  assert (∀ items, ¬ heads data items) as H by eauto. clear Hnot.
  destruct data as [| | | | |[|x l]|items]; try done.
  - run_body. by split_ifs.
  - destruct x as [| | | | | |items]; try (run_body; by split_ifs).
    destruct (H items). right. by exists l.
  - destruct (H items). by left.
Qed.

(** Offers that are not an object, nor an array that starts with one,
    give no price. *)
Lemma written_price_bad_offers (data offers : json) (items : list (string * json)) :
  heads data items →
  assoc items "offers" = Some offers →
  (∀ offer_items, ¬ heads offers offer_items) →
  written (Ok data) "price" = None.
Proof.
  unfold written. intros Hdata Hoffers Hbad.
  assert (isinstance_dict offers = false) as Hnd.
  { destruct offers as [| | | | | |offer_items]; try done.
    destruct (Hbad offer_items). by left. }
  assert (∀ offer, getitem0 offers = Ok offer → isinstance_dict offer = false)
    as Hfirst.
  { intros offer. destruct offers as [| | | |[|c s]|[|x l]|]; simpl; try done.
    - by intros [= <-].
    - intros [= <-]. destruct x as [| | | | | |offer_items]; try done.
      destruct (Hbad offer_items). right. by exists l. }
  destruct Hdata as [->|[rest ->]]; run_body; rewrite Hoffers; simpl.
  all: rewrite Hnd.
  all: destruct (assoc items "name"), (assoc items "description"); simpl.
  all: destruct (getitem0 offers) as [offer|] eqn:Hoffer; simpl;
    try by simplify_map_eq.
  all: specialize (Hfirst offer eq_refl); destruct offer; try done; simpl.
  all: by simplify_map_eq.
Qed.

End RecordFacts.

(** X4. Whatever the script blocks hold, the record [parse_json_ld]
    returns has no other key than [name], [description] and [price], and
    its [price], when present, is a [str] that contains a space and so is
    never empty. *)
Theorem parse_json_ld_record_shape (scripts : list (Py.result Py.json)) :
  (∀ key v, JsonLd.parse_json_ld scripts !! key = Some v →
            key ∈ ["name"; "description"; "price"])
  ∧ (∀ v, JsonLd.parse_json_ld scripts !! "price" = Some v →
          ∃ s, v = Py.JStr s ∧ s ≠ "" ∧ PyStr.contains " " s = true).
Proof.
  destruct (parse_json_ld_ok scripts) as [Hkeys Hprice]. split; [done|].
  intros v Hv. destruct (Hprice v Hv) as (s & -> & Hs).
  exists s. split_and!; [done| |done]. by intros ->.
Qed.

Lemma parse_json_ld_record_shape_witness :
  ∃ s, JsonLd.parse_json_ld
         [Py.Ok (Py.JDict [("offers", Py.JDict [("price", Py.JInt 7)])])]
       !! "price" = Some (Py.JStr s) ∧ s ≠ "".
Proof.
  destruct (parse_json_ld_record_shape
              [Py.Ok (Py.JDict [("offers", Py.JDict [("price", Py.JInt 7)])])])
    as [_ Hprice].
  destruct (Hprice (Py.JStr " 7")) as (s & Heq & Hne & _);
    [vm_compute; reflexivity|].
  exists s. split; [|done]. rewrite <- Heq. vm_compute. reflexivity.
Defined.

(** X5. A script block whose text is not JSON, or whose JSON is neither an
    object nor an array that starts with an object (a number, a string,
    null, an empty array, an array of arrays), changes nothing: the record
    is the one the other blocks give. *)
Theorem parse_json_ld_skips_block
    (earlier : list (Py.result Py.json)) (loaded : Py.result Py.json)
    (later : list (Py.result Py.json)) :
  (∀ data items, loaded = Py.Ok data → ¬ Design.heads data items) →
  JsonLd.parse_json_ld (earlier ++ loaded :: later)
  = JsonLd.parse_json_ld (earlier ++ later).
Proof.
  intros Hnot. unfold JsonLd.parse_json_ld. rewrite !foldl_app. simpl.
  by rewrite loop_step_not_object.
Qed.

Lemma parse_json_ld_skips_block_witness :
  JsonLd.parse_json_ld
    ([Py.Ok Samples.book] ++ Py.Ok (Py.JStr "offers and name") :: [Py.Ok Samples.lamp])
  = JsonLd.parse_json_ld ([Py.Ok Samples.book] ++ [Py.Ok Samples.lamp]).
Proof.
  apply parse_json_ld_skips_block.
  intros data items [= <-] [H|[rest H]]; discriminate H.
Defined.

(** X6. A field is missing from the record exactly when no block writes
    it: nothing a block stores is ever removed again. *)
Theorem parse_json_ld_missing_field
    (scripts : list (Py.result Py.json)) (field : string) :
  JsonLd.parse_json_ld scripts !! field = None
  ↔ Forall (λ b, Design.written b field = None) scripts.
Proof.
  induction scripts as [|b scripts IH] using rev_ind.
  - split; [constructor|]. intros _. apply lookup_empty.
  - rewrite parse_json_ld_snoc, loop_step_lookup, Forall_app, Forall_singleton.
    destruct (Design.written b field); [|tauto].
    split; [done|]. by intros [_ ?].
Qed.

(** X7. When the [offers] of an object block is neither an object nor an
    array that starts with an object (null, a number, a string, an empty
    array), the block sets no price and leaves the price of the earlier
    blocks in place, while its [name] and [description] are stored as
    usual. *)
Theorem parse_json_ld_bad_offers
    (earlier : list (Py.result Py.json)) (data offers : Py.json)
    (items : list (string * Py.json)) :
  Design.heads data items →
  Py.assoc items "offers" = Some offers →
  (∀ offer_items, ¬ Design.heads offers offer_items) →
  let before := JsonLd.parse_json_ld earlier in
  let after := JsonLd.parse_json_ld (earlier ++ [Py.Ok data]) in
  after !! "price" = before !! "price"
  ∧ after !! "name"
    = match Py.assoc items "name" with
      | Some v => Some v
      | None => before !! "name"
      end
  ∧ after !! "description"
    = match Py.assoc items "description" with
      | Some v => Some v
      | None => before !! "description"
      end.
Proof.
  intros Hdata Hoffers Hbad before after. subst before after.
  rewrite parse_json_ld_snoc, !loop_step_lookup.
  rewrite (written_price_bad_offers data offers items) by done.
  by rewrite (written_name data items), (written_description data items).
Qed.

Lemma parse_json_ld_bad_offers_witness :
  JsonLd.parse_json_ld
    ([Py.Ok Samples.book]
     ++ [Py.Ok (Py.JDict [("name", Py.JStr "Lamp"); ("offers", Py.JStr "9.99")])])
  !! "price" = Some (Py.JStr "GBP 24.99").
Proof.
  destruct (parse_json_ld_bad_offers [Py.Ok Samples.book]
              (Py.JDict [("name", Py.JStr "Lamp"); ("offers", Py.JStr "9.99")])
              (Py.JStr "9.99")
              [("name", Py.JStr "Lamp"); ("offers", Py.JStr "9.99")])
    as (Hprice & _); [by left|reflexivity| |].
  - intros offer_items [H|[rest H]]; discriminate H.
  - rewrite Hprice. vm_compute. reflexivity.
Defined.

(** X8. Reading the same blocks twice gives the record of reading them
    once: a page that repeats its structured data changes nothing. *)
Theorem parse_json_ld_repeated (scripts : list (Py.result Py.json)) :
  JsonLd.parse_json_ld (scripts ++ scripts) = JsonLd.parse_json_ld scripts.
Proof.
  apply map_eq. intros field.
  unfold JsonLd.parse_json_ld at 1. rewrite foldl_app.
  fold (JsonLd.parse_json_ld scripts).
  rewrite foldl_loop_step_lookup.
  by destruct (JsonLd.parse_json_ld scripts !! field).
Qed.

(** ** The model interface *)

Section StripFacts.
Import PyStr.

Lemma rstrip_idemp (s : string) : rstrip (rstrip s) = rstrip s.
Proof.
  induction s as [|c s IH]; [done|]. simpl.
  destruct (rstrip s) as [|c' r] eqn:Hr.
  - destruct (isspace c) eqn:Hc; [done|]. simpl. by rewrite Hc.
  - simpl. simpl in IH. by rewrite IH.
Qed.

(** Stripping on the right keeps a first character that is not a space. *)
Lemma lstrip_rstrip (s : string) :
  lstrip s = s → lstrip (rstrip s) = rstrip s.
Proof.
  destruct s as [|c s]; [done|]. simpl.
  destruct (isspace c) eqn:Hc.
  - intros Heq. exfalso. apply (f_equal String.length) in Heq.
    assert (∀ t, (String.length (lstrip t) ≤ String.length t)%nat) as Hle.
    { induction t as [|x t IHt]; simpl; [lia|]. destruct (isspace x); simpl; lia. }
    specialize (Hle s). simpl in Heq. lia.
  - intros _. destruct (rstrip s); simpl; by rewrite Hc.
Qed.

Lemma lstrip_idemp (s : string) : lstrip (lstrip s) = lstrip s.
Proof.
  induction s as [|c s IH]; [done|]. simpl.
  destruct (isspace c) eqn:Hc; [done|]. simpl. by rewrite Hc.
Qed.

Lemma strip_idemp (s : string) : strip (strip s) = strip s.
Proof.
  unfold strip. rewrite (lstrip_rstrip (lstrip s)) by apply lstrip_idemp.
  apply rstrip_idemp.
Qed.

End StripFacts.

(** X9. [ask_ollama] never raises. It sends one request, with the model
    [dom-specialist], a context of 8192 and a timeout of 30 seconds, and
    returns a completion exactly when the status is 200 and the body has
    a text response, which it returns stripped. An error message is
    shown exactly when the request or the decoding of a 200 body raises;
    another status gives [None] without any message. *)
Theorem ask_ollama_contract {X : Type}
    (post : Ollama.endpoint) (prompt : string) (temperature : Z)
    (log : list Trace.event) :
  ∃ answer said,
    Ollama.ask_ollama (X := X) post prompt temperature log
    = (log ++ Trace.OllamaPost "dom-specialist" prompt temperature 8192 30 :: said,
       inl answer)
    ∧ (∀ x, answer = Some x
            ↔ ∃ text, post prompt temperature = Ollama.Reply 200 (Py.Ok text)
                      ∧ x = PyStr.strip text)
    ∧ (∀ x, answer = Some x → PyStr.strip x = x)
    ∧ (said = [] ∨ said = [Trace.Ui Trace.OllamaError])
    ∧ (said = [Trace.Ui Trace.OllamaError]
       ↔ (∃ e, post prompt temperature = Ollama.NoReply e)
         ∨ (∃ e, post prompt temperature = Ollama.Reply 200 (Py.Raise e))).
Proof.
  unfold Ollama.ask_ollama, Trace.emit, mbind, Trace.prog_bind, mret, Trace.prog_ret.
  destruct (post prompt temperature) as [status [text|e]|e]; simpl;
    [destruct (Z.eqb_spec status 200) as [->|Hstatus]..|]; simpl.
  - exists (Some (PyStr.strip text)), [].
    split_and!; [by rewrite <- ?app_assoc| | |by left|].
    + intros x. split; [intros [= <-]; eauto|by intros (? & [= <-] & ->)].
    + intros x [= <-]. apply strip_idemp.
    + split; [done|]. by intros [[? ?]|[? ?]].
  - exists None, [].
    split_and!; [by rewrite <- ?app_assoc| |done|by left|].
    + intros x. split; [done|]. intros (? & [= ? ?] & _). done.
    + split; [done|]. intros [[? ?]|[? [= ?]]]; done.
  - exists None, [Trace.Ui Trace.OllamaError].
    split_and!; [by rewrite <- ?app_assoc| |done|by right|].
    + intros x. split; [done|]. by intros (? & ? & _).
    + split; [|done]. intros _. right. by exists e.
  - exists None, [].
    split_and!; [by rewrite <- ?app_assoc| |done|by left|].
    + intros x. split; [done|]. by intros (? & ? & _).
    + split; [done|]. intros [[? ?]|[? [= ?]]]; done.
  - exists None, [Trace.Ui Trace.OllamaError].
    split_and!; [by rewrite <- ?app_assoc| |done|by right|].
    + intros x. split; [done|]. by intros (? & ? & _).
    + split; [|done]. intros _. left. by exists e.
Qed.

Lemma ask_ollama_contract_witness :
  (Ollama.ask_ollama (X := Agent.outcome)
     (λ _ _, Ollama.Reply 200 (Py.Ok "  div.price  ")) "prompt" 10 []).2
  = inl (Some "div.price").
Proof.
  destruct (ask_ollama_contract (X := Agent.outcome)
              (λ _ _, Ollama.Reply 200 (Py.Ok "  div.price  ")) "prompt" 10 [])
    as (answer & said & -> & Hanswer & _).
  cbn [snd]. f_equal. apply Hanswer. by exists "  div.price  ".
Defined.

(** ** The fetcher: one backend per call *)

(** X10. Once the stealth branch is taken the fetcher never makes a direct
    HTTP request, whatever happens to the browser: there is no fallback
    to [requests]. In particular, when launching the browser raises, that
    exception leaves [fetch_html], and neither a navigation nor a quit
    is attempted. *)
Theorem fetch_html_no_fallback (b : Fetch.backend) (url : string) :
  Fetch.is_hard_target url && Fetch.SELENIUM_AVAILABLE b = true →
  Props.count Props.is_http_get (Fetch.fetch_html b url []).1 = 0%nat
  ∧ (∀ e, Fetch.chrome b = Py.Raise e →
          Fetch.fetch_html b url []
          = ([Trace.Ui Trace.StealthToast;
              Trace.ChromeLaunch ["--headless"; "--disable-gpu"]],
             inr e)).
Proof.
  intros Hstealth. split.
  - destruct (Fetch.chrome b) as [[]|e] eqn:Hchrome.
    + destruct (fetch_html_stealth b url [] Hstealth Hchrome) as (r & -> & _).
      by destruct (Fetch.driver_get b url).
    + by rewrite (fetch_html_launch_fails b url [] e).
  - intros e Hchrome. by rewrite (fetch_html_launch_fails b url [] e).
Qed.

Lemma fetch_html_no_fallback_witness :
  Props.count Props.is_http_get
    (Fetch.fetch_html Samples.stuck_browser "https://www.nike.com/t/air" []).1
  = 0%nat.
Proof.
  by destruct (fetch_html_no_fallback Samples.stuck_browser
                 "https://www.nike.com/t/air" eq_refl).
Defined.

(** X11. In a stealth fetch whose browser was launched, an exception of
    [driver.quit()] is what the fetch raises, also when the page had been
    captured: the [finally] clause replaces the result. *)
Theorem fetch_html_quit_raises (b : Fetch.backend) (url : string) (e : Py.exn) :
  Fetch.is_hard_target url && Fetch.SELENIUM_AVAILABLE b = true →
  Fetch.chrome b = Py.Ok () →
  Fetch.driver_quit b = Py.Raise e →
  (Fetch.fetch_html b url []).2 = inr e.
Proof.
  intros Hstealth Hchrome Hquit.
  destruct (fetch_html_stealth b url [] Hstealth Hchrome) as (r & -> & Hraise & _).
  by apply Hraise.
Qed.

Lemma fetch_html_quit_raises_witness :
  (Fetch.fetch_html
     (Fetch.Backend true (Py.Ok ()) (λ _, Py.Ok ()) (Py.Ok Samples.page)
        (Py.Raise Py.WebDriverException) (λ _, Py.Ok Samples.page))
     "https://stockx.com/sneakers" []).2
  = inr Py.WebDriverException.
Proof. by apply fetch_html_quit_raises. Defined.

(** X12. The test for a hard target only looks for the listed domains
    inside the URL text, so it survives any text put before or after the
    URL: a longer URL around a hard target is a hard target. *)
Theorem is_hard_target_extends (url before after : string) :
  Fetch.is_hard_target url = true →
  Fetch.is_hard_target (before +:+ url +:+ after) = true.
Proof.
  rewrite !is_hard_target_spec. intros (x & i & Hin & Hocc).
  exists x, (PyStr.len before + i). split; [done|]. by apply occurs_at_wrap.
Qed.

Lemma is_hard_target_extends_witness :
  Fetch.is_hard_target ("https://" +:+ "shop.adidas.com" +:+ "/shoes?size=42") = true.
Proof. apply is_hard_target_extends. vm_compute. reflexivity. Defined.

(** ** Whole runs: what they never do *)

Section RunFacts.
Import Py Trace Agent Design Forms Props Ollama.

Lemma count_app (kind : event → bool) (l1 l2 : list event) :
  count kind (l1 ++ l2) = (count kind l1 + count kind l2)%nat.
Proof. induction l1 as [|e l1 IH]; simpl; [done|]. rewrite IH. lia. Qed.

Lemma count_noise (kind : event → bool) (post : endpoint) (prompt : string) (t : Z) :
  kind (Ui OllamaError) = false → count kind (noise post prompt t) = 0%nat.
Proof.
  intros Hk. destruct (noise_cases post prompt t) as [-> | ->]; simpl; [done|].
  by rewrite Hk.
Qed.

Lemma count_none (kind : event → bool) (log : list event) :
  Forall (λ e, kind e = false) log → count kind log = 0%nat.
Proof. induction 1 as [|e l He _ IH]; simpl; [done|]. by rewrite He, IH. Qed.

Lemma cascade_run_verdict (w : world) (html intent : string) (sim : bool) :
  (cascade_run w html intent sim).2 = Failed
  ∨ ∃ strategy value, (cascade_run w html intent sim).2 = Success strategy value.
Proof.
  destruct (cascade_run_shape w html intent sim)
    as (? & ? & ? & _ & _ & _ & [(s & v & H & _)|[H _]]); eauto.
Qed.

(** The calls the cascade makes: at most one selector query, made after a
    model request, and at most two model requests; no page request. *)
Lemma cascade_run_counts (w : world) (html intent : string) (sim : bool) :
  let log := (cascade_run w html intent sim).1 in
  (count is_model_request log ≤ 2)%nat
  ∧ (count is_selector_query log ≤ 1)%nat
  ∧ (count is_selector_query log ≤ count is_model_request log)%nat
  ∧ count is_http_get log = 0%nat
  ∧ count is_browser_event log = 0%nat.
Proof.
  unfold cascade_run, healing_run, fallback_run, selector_log, cache_log.
  destruct (price_found w html intent); cbn [fst snd].
  { destruct sim; simpl; lia. }
  destruct (select_one w html (candidate w html intent)) as [| |text];
    [| |destruct (0 <? PyStr.len text)];
    try destruct (direct_answer w html intent) as [answer|];
    try destruct (PyStr.truthy answer);
    destruct sim; cbn [fst snd].
  all: rewrite !count_app, ?count_noise by done; simpl; lia.
Qed.

Lemma fetch_html_counts (b : Fetch.backend) (url : string) :
  let log := (Fetch.fetch_html b url []).1 in
  count is_model_request log = 0%nat
  ∧ count is_selector_query log = 0%nat
  ∧ (count is_http_get log ≤ 1)%nat.
Proof.
  destruct (Fetch.is_hard_target url && Fetch.SELENIUM_AVAILABLE b) eqn:Hcase.
  - destruct (Fetch.chrome b) as [[]|e] eqn:Hchrome.
    + destruct (fetch_html_stealth b url [] Hcase Hchrome) as (r & -> & _).
      destruct (Fetch.driver_get b url); simpl; lia.
    + rewrite (fetch_html_launch_fails b url [] e) by done. simpl. lia.
  - rewrite fetch_html_direct by done. simpl. lia.
Qed.

(** Every run ends in one of four ways, each with its log. *)
Lemma run_cases (w : world) (url intent : string) (sim : bool) :
  let flog := (Fetch.fetch_html (web w) url []).1 in
  run w url intent sim = ([Ui MissingInput], NoInput) ∧ (url = "" ∨ intent = "")
  ∨ (∃ e, run w url intent sim = (Ui (Connecting url) :: flog, Crashed e)
          ∧ url ≠ "" ∧ intent ≠ ""
          ∧ fetched w url = inl e)
  ∨ (run w url intent sim
     = (Ui (Connecting url) :: flog ++ [Ui LoadFailedMsg], LoadFailed)
     ∧ url ≠ "" ∧ intent ≠ ""
     ∧ (fetched w url = inr None ∨ fetched w url = inr (Some "")))
  ∨ (∃ html,
       loads w url intent html
       ∧ run w url intent sim
         = (Ui (Connecting url) :: flog ++ (cascade_run w html intent sim).1,
            (cascade_run w html intent sim).2)).
Proof.
  intros flog.
  destruct (decide (url = "")) as [Hurl|Hurl];
    [left; split; [apply run_no_input|]; auto|].
  destruct (decide (intent = "")) as [Hintent|Hintent];
    [left; split; [apply run_no_input|]; auto|].
  right. rewrite run_form by done. cbn zeta. fold flog.
  destruct (fetched w url) as [e|[[|c html]|]] eqn:Hfetched; cbn [PyStr.truthy].
  - left. by exists e.
  - right. left. auto.
  - right. right. exists (String c html). split; [|done]. by split_and!.
  - right. left. auto.
Qed.

Lemma fetched_raised (w : world) (url : string) (e : exn) :
  fetched w url = inl e ↔ (Fetch.fetch_html (web w) url []).2 = inr e.
Proof.
  unfold fetched. destruct (Fetch.fetch_html (web w) url []).2; split; congruence.
Qed.

Lemma cascade_run_enters_check (w : world) (html intent : string) (sim : bool) :
  StructuredDataCheck ∈ path (cascade_run w html intent sim).1.
Proof.
  unfold cascade_run. destruct (price_found w html intent); cbn [fst snd].
  all: rewrite !path_app, !elem_of_app; left; right; apply list_elem_of_here.
Qed.

Lemma asked_silent (post : endpoint) (prompt : string) (t : Z) :
  model_silent post → asked post prompt t = None.
Proof.
  intros Hsilent. unfold asked, ask_ollama, emit, mbind, prog_bind, mret, prog_ret.
  simpl. specialize (Hsilent prompt t).
  destruct (post prompt t) as [status [text|e]|e]; simpl; [|by destruct (_ =? _)..|done].
  destruct (Z.eqb_spec status 200) as [->|?]; [|done]. by destruct (Hsilent text).
Qed.

End RunFacts.

(** X14. Without both inputs the run shows one message and asks nothing of
    anyone. More generally the structured-data check is entered exactly
    in the runs that end in Success or in the final failure; a run that
    stops earlier (missing input, failed load, crash of the fetch) has
    made no request to the model and no selector query. *)
Theorem run_stops_before_cascade
    (w : Agent.world) (url intent : string) (simulate_break : bool) :
  let log := (Agent.run w url intent simulate_break).1 in
  let outcome := (Agent.run w url intent simulate_break).2 in
  (url = "" ∨ intent = "" → log = [Trace.Ui Trace.MissingInput])
  ∧ (Design.StructuredDataCheck ∈ Design.path log
     ↔ outcome = Agent.Failed ∨ ∃ strategy value, outcome = Agent.Success strategy value)
  ∧ (Design.StructuredDataCheck ∉ Design.path log →
     Forall (λ e, Design.healing_call e = false) log).
Proof.
  intros log outcome. subst log outcome.
  pose proof (path_quiet _ (fetch_html_quiet (Agent.web w) url)) as Hquiet.
  assert (Forall (λ e, Design.healing_call e = false)
            (Fetch.fetch_html (Agent.web w) url []).1) as Hcalls.
  { eapply Forall_impl; [apply fetch_html_quiet|]. by intros e [_ ?]. }
  assert (∀ l, Design.path (Trace.Ui (Trace.Connecting url)
                            :: (Fetch.fetch_html (Agent.web w) url []).1 ++ l)
               = Design.Init :: Design.path l) as Hpath.
  { intros l. change (Design.path (?e :: ?k)) with (Design.Init :: Design.path k).
    by rewrite path_app, Hquiet. }
  assert (∀ l : list Design.state,
            l = [] ∨ l = [Design.Init] ∨ l = [Design.Init; Design.FailedState] →
            Design.StructuredDataCheck ∉ l) as Hshort.
  { intros l [->|[->| ->]] H;
      repeat (apply elem_of_cons in H as [H|H]; [done|]);
      by apply elem_of_nil in H. }
  destruct (run_cases w url intent simulate_break)
    as [[-> Hempty]|[(e' & -> & Hu & Hi & Hf)
       |[(-> & Hu & Hi & Hf)|(html & Hloads & ->)]]]; cbn [fst snd].
  - split_and!; [done| |by repeat constructor].
    split; [|by intros [?|(? & ? & ?)]].
    intros H. by destruct (Hshort [] (or_introl eq_refl)).
  - rewrite <- (app_nil_r (Fetch.fetch_html (Agent.web w) url []).1) at 1 2 3.
    rewrite Hpath. split_and!; [by intros [|]| |].
    + split; [|by intros [?|(? & ? & ?)]].
      intros H. destruct (Hshort [Design.Init]); auto.
    + intros _. by constructor.
  - rewrite Hpath. split_and!; [by intros [|]| |].
    + split; [|by intros [?|(? & ? & ?)]].
      intros H. destruct (Hshort [Design.Init; Design.FailedState]); auto.
    + intros _. constructor; [done|]. apply Forall_app. split; [done|].
      by repeat constructor.
  - rewrite Hpath. destruct Hloads as (Hu & Hi & _).
    pose proof (cascade_run_enters_check w html intent simulate_break) as Hin.
    split_and!; [by intros [|]| |].
    + split; [intros _|intros _; by apply list_elem_of_further].
      destruct (cascade_run_verdict w html intent simulate_break); auto.
    + intros Hno. destruct Hno. by apply list_elem_of_further.
Qed.

Lemma run_stops_before_cascade_witness :
  (Agent.run (Samples.world_of [] Samples.no_model) "" "Extract the price" true).1
  = [Trace.Ui Trace.MissingInput].
Proof.
  destruct (run_stops_before_cascade (Samples.world_of [] Samples.no_model)
              "" "Extract the price" true) as [H _].
  apply H. by left.
Defined.

(** X15. A run that ends in Success always carries a value that is not
    empty, whichever strategy found it: the price of the record holds at
    least its space, the selector's text and the fallback's answer are
    tested before they are accepted. *)
Theorem run_success_not_empty
    (w : Agent.world) (url intent : string) (simulate_break : bool)
    (strategy : Agent.strategy) (value : string) :
  (Agent.run w url intent simulate_break).2 = Agent.Success strategy value →
  value ≠ "".
Proof.
  destruct (run_cases w url intent simulate_break)
    as [[-> _]|[(e' & -> & _)|[(-> & _)|(html & Hloads & ->)]]]; cbn [snd];
    try done.
  unfold Forms.cascade_run.
  pose proof (price_found_spec w html intent) as Hspec.
  destruct (Design.price_found w html intent); cbn [snd].
  - destruct (proj1 Hspec eq_refl) as (_ & v & Hv).
    rewrite (lookup_total_correct _ _ _ Hv).
    destruct (parse_json_ld_ok (Agent.ld_json w html)) as [_ Hprice].
    destruct (Hprice v Hv) as (s & -> & Hs). intros [= _ <-]. simpl.
    by intros ->.
  - destruct (healing_run_cases w html intent)
      as (trying & _ & _ & [(text & Hne & _ & ->)|[_ (said & _ & ->)]]);
      cbn [snd]; [by intros [= _ <-]|].
    destruct (fallback_run_cases w html intent)
      as (asking & _ & _ & [(answer & Hne & _ & ->)|[_ ->]]); cbn [snd];
      [by intros [= _ <-]|done].
Qed.

Lemma run_success_not_empty_witness :
  "GBP 24.99" ≠ "".
Proof.
  apply (run_success_not_empty
           (Samples.world_of [Py.Ok Samples.book] Samples.no_model)
           "https://books.example/1" "Extract the price" true
           Agent.StructuredData).
  vm_compute. reflexivity.
Defined.

(** X16. No run asks the model more than twice, queries the page with a
    selector more than once, or requests the page over HTTP more than
    once; and a selector query is only ever made after a request to the
    model. *)
Theorem run_calls_bounded
    (w : Agent.world) (url intent : string) (simulate_break : bool) :
  let log := (Agent.run w url intent simulate_break).1 in
  (Props.count Props.is_model_request log ≤ 2)%nat
  ∧ (Props.count Props.is_selector_query log ≤ 1)%nat
  ∧ (Props.count Props.is_selector_query log
     ≤ Props.count Props.is_model_request log)%nat
  ∧ (Props.count Props.is_http_get log ≤ 1)%nat.
Proof.
  intros log. subst log.
  pose proof (fetch_html_counts (Agent.web w) url) as (Hm & Hs & Hg).
  cbn zeta in Hm, Hs, Hg.
  destruct (run_cases w url intent simulate_break)
    as [[-> _]|[(e' & -> & _)|[(-> & _)|(html & _ & ->)]]]; cbn [fst].
  - simpl. lia.
  - cbn [Props.count Props.is_model_request Props.is_selector_query
           Props.is_http_get]. lia.
  - cbn [Props.count Props.is_model_request Props.is_selector_query
           Props.is_http_get]. rewrite !count_app. simpl. lia.
  - pose proof (cascade_run_counts w html intent simulate_break)
      as (Hcm & Hcs & Hcsm & Hcg & _). cbn zeta in Hcm, Hcs, Hcsm, Hcg.
    cbn [Props.count Props.is_model_request Props.is_selector_query
           Props.is_http_get]. rewrite !count_app. lia.
Qed.

(** X17. The checkbox that simulates a broken cache changes neither how a
    run ends nor which calls it makes to the model and to the page: it
    only adds the three cache events to the log. *)
Theorem simulate_break_is_cosmetic (w : Agent.world) (url intent : string) :
  (Agent.run w url intent true).2 = (Agent.run w url intent false).2
  ∧ List.filter Design.healing_call (Agent.run w url intent true).1
    = List.filter Design.healing_call (Agent.run w url intent false).1.
Proof.
  assert (∀ html,
            (Forms.cascade_run w html intent true).2
            = (Forms.cascade_run w html intent false).2
            ∧ List.filter Design.healing_call (Forms.cascade_run w html intent true).1
              = List.filter Design.healing_call
                  (Forms.cascade_run w html intent false).1) as Hcascade.
  { intros html. unfold Forms.cascade_run.
    destruct (Design.price_found w html intent); cbn [fst snd];
      by rewrite !List.filter_app. }
  destruct (decide (url = "")) as [Hurl|Hurl];
    [by rewrite !run_no_input by auto|].
  destruct (decide (intent = "")) as [Hintent|Hintent];
    [by rewrite !run_no_input by auto|].
  rewrite !run_form by done. cbn zeta.
  destruct (Design.fetched w url) as [e|[html|]]; [done| |done].
  destruct (PyStr.truthy html); [|done]. cbn [fst snd].
  destruct (Hcascade html) as [Hout Hcalls]. split; [done|].
  cbn [List.filter]. rewrite !List.filter_app. by rewrite Hcalls.
Qed.

(** X18. When the model never returns a completion (it is unreachable,
    answers with another status than 200, or its body cannot be read),
    the candidate selector is [None] and the text fallback cannot
    succeed; if in addition the record settles nothing and the page
    rejects the [None] selector, the run ends in the final failure. *)
Theorem run_without_model
    (w : Agent.world) (url intent html : string) (simulate_break : bool) :
  Design.loads w url intent html →
  Props.model_silent (Agent.ollama w) →
  let outcome := (Agent.run w url intent simulate_break).2 in
  Design.candidate w html intent = None
  ∧ (∀ value, outcome ≠ Agent.Success Agent.TextFallback value)
  ∧ (Design.price_found w html intent = false →
     (∀ text, Agent.select_one w html None = Agent.Element text → text = "") →
     outcome = Agent.Failed).
Proof.
  intros Hloads Hsilent outcome. subst outcome.
  assert (Design.candidate w html intent = None) as Hcand
    by (by apply asked_silent).
  assert (Design.direct_answer w html intent = None) as Hanswer
    by (by apply asked_silent).
  assert ((Forms.fallback_run w html intent).2 = Agent.Failed) as Hfall.
  { destruct (fallback_run_cases w html intent)
      as (asking & _ & _ & [(answer & _ & Ha & _)|[_ ->]]); [congruence|done]. }
  rewrite (run_loads w url intent html) by done. cbn [snd].
  unfold Forms.cascade_run. split; [done|].
  destruct (Design.price_found w html intent); cbn [snd].
  - split; [done|]. done.
  - destruct (healing_run_cases w html intent)
      as (trying & _ & _ & [(text & Hne & Hsel & ->)|[_ (said & _ & ->)]]);
      cbn [snd].
    + split; [done|]. intros _ Hreject. rewrite Hcand in Hsel.
      by destruct (Hne (Hreject text Hsel)).
    + rewrite Hfall. split; [done|]. done.
Qed.

Lemma run_without_model_witness :
  (Agent.run (Samples.world_of [] Samples.no_model)
     "https://books.example/1" "Extract the price" true).2
  = Agent.Failed.
Proof.
  assert (Design.loads (Samples.world_of [] Samples.no_model)
            "https://books.example/1" "Extract the price" Samples.page) as Hloads.
  { split_and!; first [done | vm_compute; reflexivity]. }
  destruct (run_without_model _ _ _ _ true Hloads) as (_ & _ & Hfail).
  - by intros prompt temperature text.
  - apply Hfail; [vm_compute; reflexivity|]. by intros text.
Defined.

(** ** The size of the prompts *)

Lemma len_selector_prompt (html_snippet intent : string) :
  PyStr.len (Ollama.selector_prompt html_snippet intent)
  = 189 + PyStr.len intent + PyStr.len html_snippet.
Proof.
  unfold Ollama.selector_prompt, PyStr.lines. rewrite !len_app.
  unfold PyStr.len, PyStr.nl. simpl. lia.
Qed.

Lemma len_extraction_prompt (text_context intent : string) :
  PyStr.len (Ollama.extraction_prompt text_context intent)
  = 249 + PyStr.len intent + PyStr.len text_context.
Proof.
  unfold Ollama.extraction_prompt, PyStr.lines. rewrite !len_app.
  unfold PyStr.len, PyStr.nl. simpl. lia.
Qed.

(** X19. Whatever the size of the page, the two prompts a run sends stay
    small: the selector prompt has at most 4189 characters plus the
    intent, the extraction prompt at most 4249 plus the intent, because
    the focused HTML and the page text are both cut to 4000 characters
    before they are put into the prompt. *)
Theorem prompts_bounded (w : Agent.world) (html intent : string) :
  PyStr.len (Ollama.selector_prompt (Design.focused_html w html intent) intent)
  ≤ 4189 + PyStr.len intent
  ∧ PyStr.len (Ollama.extraction_prompt (Design.page_text w html intent) intent)
    ≤ 4249 + PyStr.len intent.
Proof.
  rewrite len_selector_prompt, len_extraction_prompt.
  unfold Design.focused_html, Design.page_text.
  destruct (smart_clean_html_len (Agent.clean w html)
              (Some (Subject.extract_subject intent))) as [Hfocus _].
  rewrite len_slice_to. lia.
Qed.
